(** * unibocalendar: the calendar endpoint [GET /cal/:id/:anno] of main.go

    A shallow embedding of [getCoursesCal], [successCalendar] and
    [createCal], together with the pieces of the Go standard library, of gin
    and of go-cache that these three functions call.  The handler is written
    in a state monad over the package-level cache, the gin context and a
    ghost log of the calls it makes to its collaborators. *)

From Stdlib Require Import ZArith Lia String Ascii List DecimalString DecimalPos.
From stdpp Require Import base option gmap strings list fin_maps.

Open Scope string_scope.
Open Scope Z_scope.

(** ** Go's [int] on a 64-bit platform and [strconv.Atoi] *)

Module strconv.

Definition minInt : Z := - 2 ^ 63.
Definition maxInt : Z := 2 ^ 63 - 1.

(** [ch -= '0'; if ch > 9 { syntax error }] on a byte. *)
Definition digit (ch : ascii) : option Z :=
  let n := Z.of_N (N_of_ascii ch) in
  if (48 <=? n) && (n <=? 57) then Some (n - 48) else None.

(** The digit loop [n = n*10 + int(ch)]. *)
Fixpoint digits (s : string) (n : Z) : option Z :=
  match s with
  | EmptyString => Some n
  | String ch s' =>
      match digit ch with
      | Some d => digits s' (n * 10 + d)
      | None => None
      end
  end.

Definition is_sign (ch : ascii) : bool :=
  Ascii.eqb ch "-" || Ascii.eqb ch "+".

(** [Atoi]: an optional sign, then one or more decimal digits; a value
    outside the range of [int] is a range error.  [None] stands for the
    non-nil [error] (the integer returned with it is never read by the
    handler). *)
Definition Atoi (s : string) : option Z :=
  match s with
  | EmptyString => None
  | String ch rest =>
      let body := if is_sign ch then rest else s in
      match body with
      | EmptyString => None
      | String _ _ =>
          match digits body 0 with
          | None => None
          | Some n =>
              let v := if Ascii.eqb ch "-" then - n else n in
              if (minInt <=? v) && (v <=? maxInt) then Some v else None
          end
      end
  end.

End strconv.

(** ** [fmt.Sprintf] for the verbs the source uses *)

Module fmt.

Inductive arg := S (s : string) | D (n : Z).

(** [%d] prints a signed decimal numeral. *)
Definition decimal (n : Z) : string := NilZero.string_of_int (Z.to_int n).

(** One verb applied to one operand.  The source only ever pairs [%s]
    with a string and [%d] with an int; any other pairing prints Go's
    bad-verb marker, which is not modelled beyond its prefix. *)
Definition verb (v : ascii) (a : arg) : string :=
  match a with
  | S s => if Ascii.eqb v "s" then s else "%!" ++ String v "(string)"
  | D n => if Ascii.eqb v "d" then decimal n else "%!" ++ String v "(int)"
  end.

Fixpoint Sprintf (format : string) (args : list arg) : string :=
  match format with
  | EmptyString => EmptyString
  | String ch rest =>
      if Ascii.eqb ch "%" then
        match rest with
        | EmptyString => "%!(NOVERB)"
        | String v rest' =>
            if Ascii.eqb v "%" then String "%" (Sprintf rest' args)
            else
              match args with
              | a :: args' => verb v a ++ Sprintf rest' args'
              | [] => "%!" ++ String v "(MISSING)" ++ Sprintf rest' []
              end
        end
      else String ch (Sprintf rest args)
  end.

End fmt.

(** ** [time] durations, in nanoseconds *)

Module time.
Definition Second : Z := 1000000000.
Definition Minute : Z := 60 * Second.
End time.

(** ** github.com/patrickmn/go-cache

    Modelled from the spec: the cache library is not part of src/; section
    4.2 describes it as a map from key to stored bytes with an expiry
    instant, [Get] missing on absent or expired keys and [Put] overwriting
    and resetting the expiry to now + TTL.  The definitions follow the
    library's [Set] (here [Set_]), [Get] and [DeleteExpired]; the clock reading
    [time.Now().UnixNano()] is an explicit argument. *)

Module cache.

Record Item := { Object : string; Expiration : Z }.

Definition DefaultExpiration : Z := 0.

(** [item.Expiration > 0 && now > item.Expiration] *)
Definition Expired (now : Z) (it : Item) : bool :=
  (0 <? Expiration it) && (Expiration it <? now).

Definition Set_ (defaultExpiration now : Z) (k : string) (x : string) (d : Z)
    (items : gmap string Item) : gmap string Item :=
  let d := if d =? DefaultExpiration then defaultExpiration else d in
  let e := if 0 <? d then now + d else 0 in
  <[k := {| Object := x; Expiration := e |}]> items.

Definition Get (now : Z) (k : string) (items : gmap string Item) : option string :=
  match items !! k with
  | None => None
  | Some it => if Expired now it then None else Some (Object it)
  end.

(** What the janitor goroutine runs at every cleanup interval. *)
Definition DeleteExpired (now : Z) (items : gmap string Item) : gmap string Item :=
  filter (λ kv, Expired now kv.2 = false) items.

End cache.

(** ** The domain types of package unibo that main.go touches *)

(** Modelled from the spec: [unibo.Course] is declared outside src/; the
    spec's CourseRef has an identifier, a display name and a duration in
    years, and main.go reads [Descrizione] and [DurataAnni]. *)
Record Course := { Codice : Z; Descrizione : string; DurataAnni : Z }.

(** Modelled from the spec: [unibo.Curriculum] is declared outside src/;
    main.go fills in its [Value] and leaves every other field zero. *)
Record Curriculum := { Value : string }.

Definition error := string.

Inductive result (A : Type) := Ok (a : A) | Err (e : error).
Arguments Ok {A} a.
Arguments Err {A} e.

(** ** net/http status codes *)

Module http.
Definition StatusOK : Z := 200.
Definition StatusBadRequest : Z := 400.
Definition StatusNotFound : Z := 404.
Definition StatusInternalServerError : Z := 500.
End http.

(** ** The gin context: route parameters, query string, response writer *)

Record Request := {
  Params : list (string * string);
  QueryValues : list (string * string)
}.

Record ResponseWriter := {
  Header : gmap string string;
  Status : Z;
  Written : bool;
  Body : string
}.

Record Context := {
  Req : Request;
  Writer : ResponseWriter;
  Errors : list error
}.

(** First value bound to [key], or the empty string. *)
Fixpoint ByName (key : string) (kvs : list (string * string)) : string :=
  match kvs with
  | [] => ""
  | (k, v) :: kvs' => if String.eqb k key then v else ByName key kvs'
  end.

(** The writer gin hands to the first handler of a request. *)
Definition newWriter : ResponseWriter :=
  {| Header := ∅; Status := http.StatusOK; Written := false; Body := "" |}.

Definition newContext (r : Request) : Context :=
  {| Req := r; Writer := newWriter; Errors := [] |}.

(** ** Ghost log of the calls a handler run makes *)

Inductive Event :=
| EvCacheGet (key : string)
| EvCacheSet (key : string) (buf : string)
| EvAtoi (s : string)
| EvFindById (id : Z)
| EvGetTimetable (course : Course) (year : Z) (curriculum : Curriculum)
| EvSerializeTo.

(** ** Handler state and monad *)

Record State := {
  calcache : gmap string cache.Item;
  ctx : Context;
  trace : list Event
}.

Definition Handler (A : Type) : Type := State → A * State.

#[global] Instance Handler_ret : MRet Handler := λ A a s, (a, s).
#[global] Instance Handler_bind : MBind Handler := λ A B f m s, let (a, s') := m s in f a s'.

Definition gets {A} (f : State → A) : Handler A := λ s, (f s, s).
Definition modify (f : State → State) : Handler unit := λ s, (tt, f s).

Definition record (e : Event) : Handler unit :=
  λ s, (tt, {| calcache := calcache s; ctx := ctx s; trace := trace s ++ [e] |}).

Definition withWriter (f : ResponseWriter → ResponseWriter) : Handler unit :=
  λ s, (tt, {| calcache := calcache s;
               ctx := {| Req := Req (ctx s); Writer := f (Writer (ctx s));
                         Errors := Errors (ctx s) |};
               trace := trace s |}).

(** [c.Param(key)] *)
Definition c_Param (key : string) : Handler string :=
  gets (λ s, ByName key (Params (Req (ctx s)))).

(** [c.Query(key)] *)
Definition c_Query (key : string) : Handler string :=
  gets (λ s, ByName key (QueryValues (Req (ctx s)))).

(** [c.Header(key, value)]: an empty value deletes the header, any other
    value replaces it.  Every key the source passes is already in canonical
    MIME form. *)
Definition c_Header (key value : string) : Handler unit :=
  withWriter (λ w,
    {| Header := if String.eqb value "" then delete key (Header w)
                 else <[key := value]> (Header w);
       Status := Status w; Written := Written w; Body := Body w |}).

(** [c.String(code, format)] with no further operands: the status is taken
    unless the response has already started, the plain-text content type is
    filled in only when no content type is set, and [format] is written to
    the body as it is. *)
Definition c_String (code : Z) (format : string) : Handler unit :=
  withWriter (λ w,
    {| Header := match Header w !! "Content-Type" with
                 | Some _ => Header w
                 | None => <["Content-Type" := "text/plain; charset=utf-8"]> (Header w)
                 end;
       Status := if Written w then Status w else code;
       Written := true;
       Body := Body w ++ format |}).

(** [c.Error(err)] *)
Definition c_Error (err : error) : Handler unit :=
  λ s, (tt, {| calcache := calcache s;
               ctx := {| Req := Req (ctx s); Writer := Writer (ctx s);
                         Errors := Errors (ctx s) ++ [err] |};
               trace := trace s |}).

(** What one run of the handler reads from outside: the clock at the
    cache's [Get] and at its [Set], and the state of the upstream timetable
    service. *)
Record Env (World : Type) := {
  now_get : Z;
  now_set : Z;
  upstream : World
}.
Arguments now_get {World} e.
Arguments now_set {World} e.
Arguments upstream {World} e.

(** [var calcache = cache.New(time.Minute*10, time.Minute*30)] *)
Definition calcache_defaultExpiration : Z := time.Minute * 10.
Definition calcache_cleanupInterval : Z := time.Minute * 30.

Definition calcache_Get {World} (env : Env World) (k : string) : Handler (option string) :=
  _ ← record (EvCacheGet k);
  gets (λ s, cache.Get (now_get env) k (calcache s)).

(** The value stored is the [*bytes.Buffer] the serializer filled.  After
    [SerializeTo] nothing writes to the buffer or drains it
    ([cal.String()] only reads), so the entry is modelled by the buffer's
    contents. *)
Definition calcache_Set {World} (env : Env World) (k : string) (x : string) (d : Z) : Handler unit :=
  _ ← record (EvCacheSet k x);
  modify (λ s, {| calcache := cache.Set_ calcache_defaultExpiration (now_set env) k x d
                                (calcache s);
                  ctx := ctx s;
                  trace := trace s |}).

Definition strconv_Atoi (s : string) : Handler (option Z) :=
  _ ← record (EvAtoi s); mret (strconv.Atoi s).

(** ** [successCalendar] *)

Definition successCalendar (cal : string) : Handler unit :=
  c_Header "Content-Type" "text/calendar; charset=utf-8";;
  c_Header "Content-Disposition" "attachment; filename=lezioni.ics";;
  c_Header "Access-Control-Allow-Origin" "*";;
  c_Header "Access-Control-Allow-Headers" "Content-Type, Content-Length, Accept-Encoding, Authorization";;
  c_Header "Access-Control-Allow-Methods" "GET, HEAD, OPTIONS";;
  c_String http.StatusOK cal.

(** ** The calendar document (golang-ical) *)

Record Calendar (Component : Type) := {
  CalName : option string;
  CalDescription : option string;
  Components : list Component
}.
Arguments CalName {Component} c.
Arguments CalDescription {Component} c.
Arguments Components {Component} c.

Definition SetName {Component} (n : string) (cal : Calendar Component) : Calendar Component :=
  {| CalName := Some n; CalDescription := CalDescription cal; Components := Components cal |}.

Definition SetDescription {Component} (d : string) (cal : Calendar Component) : Calendar Component :=
  {| CalName := CalName cal; CalDescription := Some d; Components := Components cal |}.

(** ** Names for what the handler derives from a request *)

Definition idParam (r : Request) : string := ByName "id" (Params r).
Definition annoParam (r : Request) : string := ByName "anno" (Params r).

(** The handler's local [cacheKey]. *)
Definition cacheKey (r : Request) : string :=
  fmt.Sprintf "%s-%s" [fmt.S (idParam r); fmt.S (annoParam r)].

(** The handler's local [curriculum]. *)
Definition curriculumOf (r : Request) : Curriculum :=
  if negb (String.eqb (ByName "curriculum" (QueryValues r)) "")
  then {| Value := ByName "curriculum" (QueryValues r) |}
  else {| Value := "" |}.

(** ** The responses the handler can leave in a fresh writer *)

Definition plainText (code : Z) (msg : string) : ResponseWriter :=
  {| Header := <["Content-Type" := "text/plain; charset=utf-8"]> ∅;
     Status := code; Written := true; Body := msg |}.

Definition calendarHeader : gmap string string :=
  <["Access-Control-Allow-Methods" := "GET, HEAD, OPTIONS"]>
  (<["Access-Control-Allow-Headers" := "Content-Type, Content-Length, Accept-Encoding, Authorization"]>
  (<["Access-Control-Allow-Origin" := "*"]>
  (<["Content-Disposition" := "attachment; filename=lezioni.ics"]>
  (<["Content-Type" := "text/calendar; charset=utf-8"]> ∅)))).

Definition calendarFile (cal : string) : ResponseWriter :=
  {| Header := calendarHeader; Status := http.StatusOK; Written := true; Body := cal |}.

Definition mkState (items : gmap string cache.Item) (r : Request)
    (w : ResponseWriter) (errs : list error) (tr : list Event) : State :=
  {| calcache := items; ctx := {| Req := r; Writer := w; Errors := errs |}; trace := tr |}.

Section Handler.

(** The collaborators of main.go that live in package unibo and in
    golang-ical: the course directory the router was built with, the
    upstream timetable fetch, the conversion of a timetable to a calendar
    and the calendar serializer. *)
Context {Timetable Component World : Type}.
Variable FindById : Z → option Course.
Variable GetTimetable : World → Course → Z → Curriculum → result Timetable.
Variable ToICS : Timetable → Calendar Component.
Variable SerializeTo : Calendar Component → result string.

Definition courses_FindById (id : Z) : Handler (option Course) :=
  _ ← record (EvFindById id); mret (FindById id).

Definition course_GetTimetable (env : Env World) (course : Course) (anno : Z)
    (curriculum : Curriculum) : Handler (result Timetable) :=
  _ ← record (EvGetTimetable course anno curriculum);
  mret (GetTimetable (upstream env) course anno curriculum).

Definition cal_SerializeTo (cal : Calendar Component) : Handler (result string) :=
  _ ← record EvSerializeTo; mret (SerializeTo cal).

(** *** [createCal] *)

Definition createCal (timetable : Timetable) (course : Course) (year : Z)
    : Calendar Component :=
  let cal := ToICS timetable in
  let cal := SetName (fmt.Sprintf "%s - %d year"
                        [fmt.S (Descrizione course); fmt.D year]) cal in
  let cal := SetDescription
               (fmt.Sprintf "Orario delle lezioni del %d anno del corso di %s"
                  [fmt.D year; fmt.S (Descrizione course)]) cal in
  cal.

(** *** [getCoursesCal] *)

Definition getCoursesCal (env : Env World) : Handler unit :=
  id ← c_Param "id";
  anno ← c_Param "anno";
  let cacheKey := fmt.Sprintf "%s-%s" [fmt.S id; fmt.S anno] in
  hit ← calcache_Get env cacheKey;
  match hit with
  | Some cal => successCalendar cal
  | None =>
    annoInt ← strconv_Atoi anno;
    match annoInt with
    | None => c_String http.StatusBadRequest "Invalid year"
    | Some annoInt =>
      idInt ← strconv_Atoi id;
      match idInt with
      | None => c_String http.StatusBadRequest "Invalid id"
      | Some idInt =>
        found ← courses_FindById idInt;
        match found with
        | None => c_String http.StatusNotFound "Course not found"
        | Some course =>
          if (annoInt <=? 0) || (annoInt >? DurataAnni course) then
            c_String http.StatusBadRequest "Invalid year"
          else
            curriculumId ← c_Query "curriculum";
            let curriculum :=
              if negb (String.eqb curriculumId "")
              then {| Value := curriculumId |}
              else {| Value := "" |} in
            timetable ← course_GetTimetable env course annoInt curriculum;
            match timetable with
            | Err err =>
              c_Error err;;
              c_String http.StatusInternalServerError "Unable to retrieve timetable"
            | Ok timetable =>
              let cal := createCal timetable course annoInt in
              buf ← cal_SerializeTo cal;
              match buf with
              | Err err =>
                c_Error err;;
                c_String http.StatusInternalServerError "Unable to serialize calendar"
              | Ok buf =>
                calcache_Set env cacheKey buf cache.DefaultExpiration;;
                successCalendar buf
              end
            end
        end
      end
    end
  end.

(** One request served against the cache [items]: gin builds a fresh
    context, runs the handler, and the final state is what the client and
    the next request see. *)
Definition serve (env : Env World) (items : gmap string cache.Item) (r : Request) : State :=
  (getCoursesCal env {| calcache := items; ctx := newContext r; trace := [] |}).2.

(** *** The eight ways through [getCoursesCal]

    One constructor per [return] of the Go function, carrying the tests
    that lead to it and the state it leaves. *)

Inductive Served (env : Env World) (items : gmap string cache.Item) (r : Request)
    : State → Prop :=
| SvHit cal :
    cache.Get (now_get env) (cacheKey r) items = Some cal →
    Served env items r
      (mkState items r (calendarFile cal) [] [EvCacheGet (cacheKey r)])
| SvBadYear :
    cache.Get (now_get env) (cacheKey r) items = None →
    strconv.Atoi (annoParam r) = None →
    Served env items r
      (mkState items r (plainText http.StatusBadRequest "Invalid year") []
         [EvCacheGet (cacheKey r); EvAtoi (annoParam r)])
| SvBadId annoInt :
    cache.Get (now_get env) (cacheKey r) items = None →
    strconv.Atoi (annoParam r) = Some annoInt →
    strconv.Atoi (idParam r) = None →
    Served env items r
      (mkState items r (plainText http.StatusBadRequest "Invalid id") []
         [EvCacheGet (cacheKey r); EvAtoi (annoParam r); EvAtoi (idParam r)])
| SvNotFound annoInt idInt :
    cache.Get (now_get env) (cacheKey r) items = None →
    strconv.Atoi (annoParam r) = Some annoInt →
    strconv.Atoi (idParam r) = Some idInt →
    FindById idInt = None →
    Served env items r
      (mkState items r (plainText http.StatusNotFound "Course not found") []
         [EvCacheGet (cacheKey r); EvAtoi (annoParam r); EvAtoi (idParam r);
          EvFindById idInt])
| SvYearRange annoInt idInt course :
    cache.Get (now_get env) (cacheKey r) items = None →
    strconv.Atoi (annoParam r) = Some annoInt →
    strconv.Atoi (idParam r) = Some idInt →
    FindById idInt = Some course →
    annoInt ≤ 0 ∨ annoInt > DurataAnni course →
    Served env items r
      (mkState items r (plainText http.StatusBadRequest "Invalid year") []
         [EvCacheGet (cacheKey r); EvAtoi (annoParam r); EvAtoi (idParam r);
          EvFindById idInt])
| SvTimetableError annoInt idInt course err :
    cache.Get (now_get env) (cacheKey r) items = None →
    strconv.Atoi (annoParam r) = Some annoInt →
    strconv.Atoi (idParam r) = Some idInt →
    FindById idInt = Some course →
    1 ≤ annoInt ≤ DurataAnni course →
    GetTimetable (upstream env) course annoInt (curriculumOf r) = Err err →
    Served env items r
      (mkState items r
         (plainText http.StatusInternalServerError "Unable to retrieve timetable")
         [err]
         [EvCacheGet (cacheKey r); EvAtoi (annoParam r); EvAtoi (idParam r);
          EvFindById idInt; EvGetTimetable course annoInt (curriculumOf r)])
| SvSerializeError annoInt idInt course timetable err :
    cache.Get (now_get env) (cacheKey r) items = None →
    strconv.Atoi (annoParam r) = Some annoInt →
    strconv.Atoi (idParam r) = Some idInt →
    FindById idInt = Some course →
    1 ≤ annoInt ≤ DurataAnni course →
    GetTimetable (upstream env) course annoInt (curriculumOf r) = Ok timetable →
    SerializeTo (createCal timetable course annoInt) = Err err →
    Served env items r
      (mkState items r
         (plainText http.StatusInternalServerError "Unable to serialize calendar")
         [err]
         [EvCacheGet (cacheKey r); EvAtoi (annoParam r); EvAtoi (idParam r);
          EvFindById idInt; EvGetTimetable course annoInt (curriculumOf r);
          EvSerializeTo])
| SvFresh annoInt idInt course timetable buf :
    cache.Get (now_get env) (cacheKey r) items = None →
    strconv.Atoi (annoParam r) = Some annoInt →
    strconv.Atoi (idParam r) = Some idInt →
    FindById idInt = Some course →
    1 ≤ annoInt ≤ DurataAnni course →
    GetTimetable (upstream env) course annoInt (curriculumOf r) = Ok timetable →
    SerializeTo (createCal timetable course annoInt) = Ok buf →
    Served env items r
      (mkState
         (cache.Set_ calcache_defaultExpiration (now_set env) (cacheKey r) buf
            cache.DefaultExpiration items)
         r (calendarFile buf) []
         [EvCacheGet (cacheKey r); EvAtoi (annoParam r); EvAtoi (idParam r);
          EvFindById idInt; EvGetTimetable course annoInt (curriculumOf r);
          EvSerializeTo; EvCacheSet (cacheKey r) buf]).

End Handler.

(** ** The janitor between two requests

    [cache.New] starts a goroutine that calls [DeleteExpired] on every
    tick; [ticks] are the clock readings of the sweeps that fall between two
    requests. *)
Definition janitor (ticks : list Z) (items : gmap string cache.Item)
    : gmap string cache.Item :=
  foldl (λ m t, cache.DeleteExpired t m) items ticks.

(** ** Vocabulary of the properties *)

Definition statusOf (s : State) : Z := Status (Writer (ctx s)).
Definition bodyOf (s : State) : string := Body (Writer (ctx s)).
Definition headerOf (s : State) (key : string) : option string :=
  Header (Writer (ctx s)) !! key.

Definition is_cache_event (e : Event) : bool :=
  match e with
  | EvCacheGet _ | EvCacheSet _ _ => true
  | _ => false
  end.

Definition is_timetable_call (e : Event) : bool :=
  match e with
  | EvGetTimetable _ _ _ => true
  | _ => false
  end.

(** The cache accesses, and the calls to the timetable source, of a run. *)
Definition cache_accesses (s : State) : list Event :=
  List.filter is_cache_event (trace s).
Definition timetable_calls (s : State) : list Event :=
  List.filter is_timetable_call (trace s).

(** A string none of whose characters is the separator of the cache key. *)
Fixpoint dash_free (s : string) : Prop :=
  match s with
  | EmptyString => True
  | String ch s' => ch ≠ "-"%char ∧ dash_free s'
  end.

Section Vocabulary.

Context {Timetable Component World : Type}.
Variable FindById : Z → option Course.
Variable GetTimetable : World → Course → Z → Curriculum → result Timetable.
Variable ToICS : Timetable → Calendar Component.
Variable SerializeTo : Calendar Component → result string.

(** The request fails one of the handler's three 400 tests. *)
Definition invalid_input (r : Request) : Prop :=
  strconv.Atoi (annoParam r) = None
  ∨ strconv.Atoi (idParam r) = None
  ∨ ∃ annoInt idInt course,
      strconv.Atoi (annoParam r) = Some annoInt
      ∧ strconv.Atoi (idParam r) = Some idInt
      ∧ FindById idInt = Some course
      ∧ (annoInt ≤ 0 ∨ annoInt > DurataAnni course).

(** [buf] is what a request with cache key [k] serializes to when every
    step of its synthesis succeeds, for some state of the upstream. *)
Definition synthesized (k : string) (buf : string) : Prop :=
  ∃ (r : Request) (w : World) annoInt idInt course timetable,
    cacheKey r = k
    ∧ strconv.Atoi (annoParam r) = Some annoInt
    ∧ strconv.Atoi (idParam r) = Some idInt
    ∧ FindById idInt = Some course
    ∧ 1 ≤ annoInt ≤ DurataAnni course
    ∧ GetTimetable w course annoInt (curriculumOf r) = Ok timetable
    ∧ SerializeTo (createCal ToICS timetable course annoInt) = Ok buf.

(** Every entry of the cache holds the bytes of a successful synthesis for
    its key. *)
Definition cache_sound (items : gmap string cache.Item) : Prop :=
  ∀ k it, items !! k = Some it → synthesized k (cache.Object it).

End Vocabulary.

(** ** A small deployment to run the handler on

    One three-year course with identifier 42; an upstream that answers with
    one lecture per request, named after the curriculum asked for, and that
    can be switched off; a serializer that prints name, description and
    lectures on one line and rejects a calendar with a lecture called
    [corrupt]. *)

Module Demo.

Definition informatica : Course :=
  {| Codice := 42; Descrizione := "Informatica"; DurataAnni := 3 |}.

Definition FindById (id : Z) : option Course :=
  if id =? 42 then Some informatica else None.

Definition GetTimetable (up : bool) (c : Course) (anno : Z) (cu : Curriculum)
    : result (list string) :=
  if up then Ok ["Lezione " ++ Value cu] else Err "upstream unavailable".

Definition ToICS (t : list string) : Calendar string :=
  {| CalName := None; CalDescription := None; Components := t |}.

Definition SerializeTo (c : Calendar string) : result string :=
  if existsb (String.eqb "Lezione corrupt") (Components c) then Err "bad event"
  else Ok (default "" (CalName c) ++ "|" ++ default "" (CalDescription c)
           ++ "|" ++ String.concat "," (Components c)).

Definition serve := serve FindById GetTimetable ToICS SerializeTo.

Definition request (id anno : string) (query : list (string * string)) : Request :=
  {| Params := [("id", id); ("anno", anno)]; QueryValues := query |}.

Definition at_ (t : Z) (up : bool) : Env bool :=
  {| now_get := t; now_set := t + 1; upstream := up |}.

(** [GET /cal/42/1], with and without a curriculum, and textual variants. *)
Definition first_year : Request := request "42" "1" [].
Definition first_year_A : Request := request "42" "1" [("curriculum", "A")].
Definition first_year_B : Request := request "42" "1" [("curriculum", "B")].
Definition first_year_padded : Request := request "+42" "01" [].
Definition corrupt_year : Request := request "42" "2" [("curriculum", "corrupt")].

(** Requests the handler rejects. *)
Definition fifth_year : Request := request "42" "5" [].
Definition year_abc : Request := request "42" "abc" [].
Definition unknown_course : Request := request "9999" "-7" [].
Definition unknown_course_year_abc : Request := request "9999" "abc" [].

(** The first request of the day, at clock reading 1000 with the upstream
    available, and the cache it leaves. *)
Definition morning : Env bool := at_ 1000 true.
Definition after_first_year : State := serve morning ∅ first_year.
Definition after_first_year_A : State := serve morning ∅ first_year_A.

(** Ten minutes after the [Set] of the first request, to the nanosecond,
    with the upstream out of service. *)
Definition ten_minutes_later : Env bool := at_ (1001 + 10 * time.Minute) false.

End Demo.

(** The header keys [successCalendar] sets. *)
Definition calendar_header_keys : list string :=
  ["Content-Type"; "Content-Disposition"; "Access-Control-Allow-Origin";
   "Access-Control-Allow-Headers"; "Access-Control-Allow-Methods"].

(** ** [anniRange], the template function of [createMyRender] *)

Module runtime.

(** [makeslice] for a [[]int] on a 64-bit platform with 48-bit heap
    addresses: eight bytes per element, and a panic when the capacity is
    negative, the length is negative or above the capacity, or the bytes
    asked for exceed [maxAlloc]. *)
Definition maxAlloc : Z := 2 ^ 48.

Definition makeslice_int (len cap : Z) : bool :=
  (0 <=? cap) && (8 * cap <=? maxAlloc) && (0 <=? len) && (len <=? cap).

(** Arithmetic on [int] wraps around. *)
Definition wrap (z : Z) : Z := (z + 2 ^ 63) mod 2 ^ 64 - 2 ^ 63.

End runtime.

Inductive outcome (A : Type) := Returned (a : A) | Panicked | OutOfFuel.
Arguments Returned {A} a.
Arguments Panicked {A}.
Arguments OutOfFuel {A}.

(** [for i := 1; i <= end; i++ { r = append(r, i) }], one unit of fuel per
    iteration. *)
Fixpoint anniRange_loop (fuel : nat) (i end_ : Z) (r : list Z) : outcome (list Z) :=
  if i <=? end_ then
    match fuel with
    | O => OutOfFuel
    | Datatypes.S fuel' => anniRange_loop fuel' (runtime.wrap (i + 1)) end_ (r ++ [i])
    end
  else Returned r.

(** [r := make([]int, 0, end)] and then the loop. *)
Definition anniRange (fuel : nat) (end_ : Z) : outcome (list Z) :=
  if runtime.makeslice_int 0 end_ then anniRange_loop fuel 1 end_ [] else Panicked.

(** ** [coursePage] *)

(** [c.HTML(code, name, obj)]: like [c.String], with the HTML content
    type; [body] is what executing the template [name] on [obj] writes.
    The execution of the template is taken to succeed. *)
Definition c_HTML (code : Z) (body : string) : Handler unit :=
  withWriter (λ w,
    {| Header := match Header w !! "Content-Type" with
                 | Some _ => Header w
                 | None => <["Content-Type" := "text/html; charset=utf-8"]> (Header w)
                 end;
       Status := if Written w then Status w else code;
       Written := true;
       Body := Body w ++ body |}).

Section Pages.

(** The collaborators of [coursePage]: the course directory, the upstream
    fetch of a course's curricula (package unibo) and the execution of a
    named template on the page data [gin.H{"Course": ..., "Curricula": ...}]. *)
Context {Curricula World : Type}.
Variable FindById : Z → option Course.
Variable GetAllCurricula : World → Course → result Curricula.
Variable ExecuteTemplate : string → Course → Curricula → string.

Definition coursePage (up : World) : Handler unit :=
  courseId ← c_Param "id";
  if String.eqb courseId "" then
    c_String http.StatusBadRequest "Invalid course id"
  else
    courseIdInt ← strconv_Atoi courseId;
    match courseIdInt with
    | None => c_String http.StatusBadRequest "Invalid course id"
    | Some courseIdInt =>
      found ← courses_FindById FindById courseIdInt;
      match found with
      | None => c_String http.StatusNotFound "Course not found"
      | Some course =>
        match GetAllCurricula up course with
        | Err err =>
          c_Error err;;
          c_String http.StatusInternalServerError "Unable to retrieve curricula"
        | Ok curricula =>
          c_HTML http.StatusOK (ExecuteTemplate "course" course curricula)
        end
      end
    end.

(** One request for [/courses/:id] served while the cache holds [items]. *)
Definition servePage (up : World) (items : gmap string cache.Item) (r : Request) : State :=
  (coursePage up {| calcache := items; ctx := newContext r; trace := [] |}).2.

End Pages.

(** ** Histories of the calendar cache *)

(** What happens to the cache over time: sweeps of the janitor and
    requests to the calendar endpoint, in the order in which they take
    hold of the cache. *)
Inductive Step (World : Type) :=
| Sweep (t : Z)
| Arrival (env : Env World) (r : Request).
Arguments Sweep {World} t.
Arguments Arrival {World} env r.

Section Histories.

Context {Timetable Component World : Type}.
Variable FindById : Z → option Course.
Variable GetTimetable : World → Course → Z → Curriculum → result Timetable.
Variable ToICS : Timetable → Calendar Component.
Variable SerializeTo : Calendar Component → result string.

Definition step (items : gmap string cache.Item) (st : Step World)
    : gmap string cache.Item :=
  match st with
  | Sweep t => cache.DeleteExpired t items
  | Arrival env r => calcache (serve FindById GetTimetable ToICS SerializeTo env items r)
  end.

(** The cache after a history that started with the empty cache of
    [cache.New]. *)
Definition replay (steps : list (Step World)) : gmap string cache.Item :=
  foldl step ∅ steps.

End Histories.

(** ** The demo deployment, continued *)

Module DemoPages.

Definition GetAllCurricula (up : bool) (c : Course) : result (list Curriculum) :=
  if up then Ok [{| Value := "A" |}; {| Value := "B" |}] else Err "upstream unavailable".

Definition ExecuteTemplate (name : string) (c : Course) (cs : list Curriculum) : string :=
  "<" ++ name ++ ">" ++ Descrizione c ++ ":" ++ String.concat "," (map Value cs).

Definition servePage := servePage Demo.FindById GetAllCurricula ExecuteTemplate.

Definition page (id : string) : Request := {| Params := [("id", id)]; QueryValues := [] |}.

(** The link of the course page to year [y] of course [id]. *)
Definition year_link (id : string) (y : Z) : Request :=
  Demo.request id (fmt.decimal y) [].

Definition history : list (Step bool) :=
  [Arrival Demo.morning Demo.first_year_A;
   Arrival (Demo.at_ 2000 true) Demo.fifth_year;
   Arrival (Demo.at_ 3000 false) (Demo.request "42" "2" []);
   Sweep (5 * time.Minute);
   Arrival (Demo.at_ (6 * time.Minute) true) Demo.first_year_padded;
   Sweep (11 * time.Minute)].

Definition replay := replay Demo.FindById Demo.GetTimetable Demo.ToICS Demo.SerializeTo.

End DemoPages.

(** * Properties *)

(** ** The library models on concrete inputs *)

Example Atoi_accepts :
  strconv.Atoi "42" = Some 42 ∧ strconv.Atoi "+42" = Some 42
  ∧ strconv.Atoi "01" = Some 1 ∧ strconv.Atoi "-7" = Some (-7)
  ∧ strconv.Atoi "-0" = Some 0.
Proof. split_and!; reflexivity. Qed.

Example Atoi_rejects :
  strconv.Atoi "" = None ∧ strconv.Atoi "-" = None ∧ strconv.Atoi "+" = None
  ∧ strconv.Atoi "abc" = None ∧ strconv.Atoi "12a" = None
  ∧ strconv.Atoi " 1" = None ∧ strconv.Atoi "1_000" = None
  ∧ strconv.Atoi "1-2" = None.
Proof. split_and!; reflexivity. Qed.

Example Atoi_int_range :
  strconv.Atoi "9223372036854775807" = Some strconv.maxInt
  ∧ strconv.Atoi "9223372036854775808" = None
  ∧ strconv.Atoi "-9223372036854775808" = Some strconv.minInt
  ∧ strconv.Atoi "-9223372036854775809" = None.
Proof. split_and!; reflexivity. Qed.

Example Sprintf_verbs :
  fmt.Sprintf "%s-%s" [fmt.S "42"; fmt.S "1"] = "42-1"
  ∧ fmt.Sprintf "%s - %d year" [fmt.S "Informatica"; fmt.D 1] = "Informatica - 1 year"
  ∧ fmt.Sprintf "%d" [fmt.D (-15)] = "-15"
  ∧ fmt.Sprintf "%d" [fmt.D 0] = "0".
Proof. split_and!; reflexivity. Qed.

Example cache_entry_lifetime :
  cache.Get (100 + 10 * time.Minute) "k"
    (cache.Set_ calcache_defaultExpiration 100 "k" "v" cache.DefaultExpiration ∅)
    = Some "v"
  ∧ cache.Get (101 + 10 * time.Minute) "k"
      (cache.Set_ calcache_defaultExpiration 100 "k" "v" cache.DefaultExpiration ∅)
    = None
  ∧ cache.DeleteExpired (101 + 10 * time.Minute)
      (cache.Set_ calcache_defaultExpiration 100 "k" "v" cache.DefaultExpiration ∅)
    = ∅.
Proof. split_and!; reflexivity. Qed.

(** ** The end-to-end scenarios of the specification on the demo deployment *)

Example scenario_unknown_course :
  statusOf (Demo.serve Demo.morning ∅ (Demo.request "9999" "1" [])) = http.StatusNotFound
  ∧ bodyOf (Demo.serve Demo.morning ∅ (Demo.request "9999" "1" [])) = "Course not found"
  ∧ timetable_calls (Demo.serve Demo.morning ∅ (Demo.request "9999" "1" [])) = [].
Proof. split_and!; reflexivity. Qed.

Example scenario_year_out_of_range :
  statusOf (Demo.serve Demo.morning ∅ Demo.fifth_year) = http.StatusBadRequest
  ∧ bodyOf (Demo.serve Demo.morning ∅ Demo.fifth_year) = "Invalid year".
Proof. split_and!; reflexivity. Qed.

Example scenario_first_year :
  statusOf Demo.after_first_year = http.StatusOK
  ∧ bodyOf Demo.after_first_year
    = "Informatica - 1 year|Orario delle lezioni del 1 anno del corso di Informatica|Lezione "
  ∧ trace Demo.after_first_year
    = [EvCacheGet "42-1"; EvAtoi "1"; EvAtoi "42"; EvFindById 42;
       EvGetTimetable Demo.informatica 1 {| Value := "" |}; EvSerializeTo;
       EvCacheSet "42-1" (bodyOf Demo.after_first_year)]
  ∧ calcache Demo.after_first_year !! "42-1"
    = Some {| cache.Object := bodyOf Demo.after_first_year;
              cache.Expiration := 1001 + 10 * time.Minute |}.
Proof. split_and!; reflexivity. Qed.

(** One nanosecond past the expiry instant the entry is gone and the
    request is synthesized again; with the upstream out of service that is
    a 500, and the failure is not stored. *)
Example scenario_expired_entry :
  statusOf (Demo.serve (Demo.at_ (1002 + 10 * time.Minute) false)
              (calcache Demo.after_first_year) Demo.first_year)
    = http.StatusInternalServerError
  ∧ timetable_calls (Demo.serve (Demo.at_ (1002 + 10 * time.Minute) false)
                       (calcache Demo.after_first_year) Demo.first_year)
    = [EvGetTimetable Demo.informatica 1 {| Value := "" |}]
  ∧ calcache (Demo.serve (Demo.at_ (1002 + 10 * time.Minute) false)
                (calcache Demo.after_first_year) Demo.first_year)
    = calcache Demo.after_first_year.
Proof. split_and!; reflexivity. Qed.

(** ** Strings and keys *)

Lemma append_String (ch : ascii) (s t : string) : String ch s ++ t = String ch (s ++ t).
Proof. reflexivity. Qed.

Lemma append_empty_l (t : string) : "" ++ t = t.
Proof. reflexivity. Qed.

Lemma append_empty_r (s : string) : s ++ "" = s.
Proof.
  induction s as [|ch s IH]; [reflexivity|].
  by rewrite append_String, IH.
Qed.

Create Rewrite HintDb append.
#[local] Hint Rewrite append_String append_empty_l append_empty_r : append.

Lemma cacheKey_eq (r : Request) : cacheKey r = idParam r ++ "-" ++ annoParam r.
Proof.
  change (cacheKey r) with (idParam r ++ String "-" (annoParam r ++ "")).
  by autorewrite with append.
Qed.

Lemma curriculumOf_Value (r : Request) :
  Value (curriculumOf r) = ByName "curriculum" (QueryValues r).
Proof.
  unfold curriculumOf.
  destruct (String.eqb_spec (ByName "curriculum" (QueryValues r)) "") as [->|]; done.
Qed.

Lemma digit_dash : strconv.digit "-" = None.
Proof. reflexivity. Qed.

Lemma digits_dash_free (s : string) : ∀ n m, strconv.digits s n = Some m → dash_free s.
Proof.
  induction s as [|ch s IH]; intros n m Hd; simpl in *; [done|].
  destruct (strconv.digit ch) as [d|] eqn:Hch; [|done].
  split; [|by eapply IH].
  intros ->. by rewrite digit_dash in Hch.
Qed.

(** A string [Atoi] accepts has a dash, if at all, only as its first byte. *)
Lemma Atoi_shape (s : string) (v : Z) :
  strconv.Atoi s = Some v → ∃ ch rest, s = String ch rest ∧ dash_free rest.
Proof.
  destruct s as [|ch rest]; [done|]. intros Ha. exists ch, rest. split; [done|].
  unfold strconv.Atoi in Ha. destruct (strconv.is_sign ch).
  - destruct rest as [|ch' rest']; [done|].
    destruct (strconv.digits (String ch' rest') 0) eqn:Hd; [|done].
    by eapply digits_dash_free.
  - destruct (strconv.digits (String ch rest) 0) eqn:Hd; [|done].
    by destruct (digits_dash_free _ _ _ Hd).
Qed.

Lemma dash_split (t t' a a' : string) :
  dash_free t → dash_free t' → t ++ "-" ++ a = t' ++ "-" ++ a' → t = t' ∧ a = a'.
Proof.
  revert t'. induction t as [|ch t IH]; intros [|ch' t'] Ht Ht' Heq;
    autorewrite with append in Heq; simpl in Ht, Ht'.
  - by injection Heq.
  - injection Heq as Hch _. by destruct Ht' as [[] _].
  - injection Heq as Hch _. by destruct Ht as [[] _].
  - injection Heq as -> Heq. destruct Ht, Ht'.
    destruct (IH t') as [-> ->]; done.
Qed.

(** On requests whose course id parses, the cache key determines both raw
    path parameters. *)
Lemma cacheKey_inj (r1 r2 : Request) (i1 i2 : Z) :
  strconv.Atoi (idParam r1) = Some i1 →
  strconv.Atoi (idParam r2) = Some i2 →
  cacheKey r1 = cacheKey r2 →
  idParam r1 = idParam r2 ∧ annoParam r1 = annoParam r2.
Proof.
  intros H1 H2. rewrite !cacheKey_eq.
  destruct (Atoi_shape _ _ H1) as (c1 & t1 & -> & Hd1).
  destruct (Atoi_shape _ _ H2) as (c2 & t2 & -> & Hd2).
  autorewrite with append. intros Heq. injection Heq as -> Heq.
  destruct (dash_split _ _ _ _ Hd1 Hd2 Heq) as [-> ->]; done.
Qed.

(** ** The cache *)

Lemma Get_Some (now : Z) (k : string) (items : gmap string cache.Item) (x : string) :
  cache.Get now k items = Some x ↔
  ∃ it, items !! k = Some it ∧ cache.Object it = x ∧ cache.Expired now it = false.
Proof.
  unfold cache.Get. destruct (items !! k) as [it|].
  - destruct (cache.Expired now it) eqn:He; split.
    + done.
    + intros (it' & [= <-] & _ & He'). congruence.
    + intros [= <-]. eauto.
    + by intros (it' & [= <-] & <- & _).
  - split; [done | by intros (it' & ? & _)].
Qed.

Lemma not_Expired (now : Z) (it : cache.Item) :
  now ≤ cache.Expiration it → cache.Expired now it = false.
Proof. unfold cache.Expired. lia. Qed.

Lemma Expired_mono (t now : Z) (it : cache.Item) :
  t ≤ now → cache.Expired t it = true → cache.Expired now it = true.
Proof. unfold cache.Expired. lia. Qed.

Lemma lookup_Set_eq (de now : Z) (k x : string) (d : Z) (items : gmap string cache.Item) :
  cache.Set_ de now k x d items !! k =
  Some {| cache.Object := x;
          cache.Expiration :=
            if 0 <? (if d =? cache.DefaultExpiration then de else d)
            then now + (if d =? cache.DefaultExpiration then de else d) else 0 |}.
Proof. unfold cache.Set_. by rewrite lookup_insert_eq. Qed.

Lemma lookup_Set_ne (de now : Z) (k k' x : string) (d : Z) (items : gmap string cache.Item) :
  k ≠ k' → cache.Set_ de now k x d items !! k' = items !! k'.
Proof. intros. unfold cache.Set_. by rewrite lookup_insert_ne. Qed.

Lemma Get_Set_ne (de t now : Z) (k k' x : string) (d : Z) (items : gmap string cache.Item) :
  k ≠ k' → cache.Get now k' (cache.Set_ de t k x d items) = cache.Get now k' items.
Proof. intros. unfold cache.Get. by rewrite lookup_Set_ne. Qed.

(** What [calcache.Set(key, buf, cache.DefaultExpiration)] stores: the
    buffer, good for ten minutes from the clock reading of the call. *)
Lemma lookup_calcache_Set (now : Z) (k x : string) (items : gmap string cache.Item) :
  cache.Set_ calcache_defaultExpiration now k x cache.DefaultExpiration items !! k =
  Some {| cache.Object := x; cache.Expiration := now + 10 * time.Minute |}.
Proof. rewrite lookup_Set_eq. f_equal. Qed.

(** A sweep of the janitor is invisible to a later [Get]. *)
Lemma Get_DeleteExpired (t now : Z) (k : string) (items : gmap string cache.Item) :
  t ≤ now → cache.Get now k (cache.DeleteExpired t items) = cache.Get now k items.
Proof.
  intros Ht. unfold cache.Get, cache.DeleteExpired.
  rewrite map_lookup_filter. destruct (items !! k) as [it|]; simpl; [|done].
  case_guard as Hg; simpl in *; [done|].
  apply not_false_is_true in Hg. by rewrite (Expired_mono t now it Ht Hg).
Qed.

Lemma Get_janitor (ticks : list Z) (now : Z) (k : string) (items : gmap string cache.Item) :
  Forall (λ t, t ≤ now) ticks →
  cache.Get now k (janitor ticks items) = cache.Get now k items.
Proof.
  unfold janitor. intros Hall. revert items.
  induction Hall as [|t ticks Ht _ IH]; intros items; simpl; [done|].
  by rewrite IH, Get_DeleteExpired.
Qed.

(** ** The handler, path by path *)

Section Properties.

Context {Timetable Component World : Type}.
Variable FindById : Z → option Course.
Variable GetTimetable : World → Course → Z → Curriculum → result Timetable.
Variable ToICS : Timetable → Calendar Component.
Variable SerializeTo : Calendar Component → result string.

Local Abbreviation run := (serve FindById GetTimetable ToICS SerializeTo).
Local Abbreviation Ran := (Served FindById GetTimetable ToICS SerializeTo).

(** Every run of the handler follows one of the eight paths. *)
Lemma serve_Served env items r : Ran env items r (run env items r).
Proof.
  unfold serve, getCoursesCal, mbind, Handler_bind, c_Param, gets, calcache_Get.
  unfold mbind, Handler_bind, gets, record.
  cbn [calcache ctx trace newContext Req snd fst].
  fold (idParam r). fold (annoParam r). fold (cacheKey r).
  destruct (cache.Get (now_get env) (cacheKey r) items) as [cal|] eqn:Hget.
  { exact (SvHit _ _ _ _ env items r cal Hget). }
  unfold strconv_Atoi, mbind, Handler_bind, mret, Handler_ret, record.
  cbn [calcache ctx trace].
  destruct (strconv.Atoi (annoParam r)) as [annoInt|] eqn:Hanno.
  2: { exact (SvBadYear _ _ _ _ env items r Hget Hanno). }
  destruct (strconv.Atoi (idParam r)) as [idInt|] eqn:Hid.
  2: { exact (SvBadId _ _ _ _ env items r annoInt Hget Hanno Hid). }
  unfold courses_FindById, mbind, Handler_bind, mret, Handler_ret, record.
  cbn [calcache ctx trace].
  destruct (FindById idInt) as [course|] eqn:Hfind.
  2: { exact (SvNotFound _ _ _ _ env items r annoInt idInt Hget Hanno Hid Hfind). }
  destruct ((annoInt <=? 0) || (annoInt >? DurataAnni course)) eqn:Hrange.
  { refine (SvYearRange _ _ _ _ env items r annoInt idInt course Hget Hanno Hid Hfind _).
    lia. }
  assert (Hin : 1 ≤ annoInt ≤ DurataAnni course) by lia.
  unfold c_Query, gets, course_GetTimetable, mbind, Handler_bind, mret, Handler_ret, record.
  cbn [calcache ctx trace newContext Req].
  fold (curriculumOf r).
  destruct (GetTimetable (upstream env) course annoInt (curriculumOf r))
    as [timetable|err] eqn:Htt.
  2: { exact (SvTimetableError _ _ _ _ env items r annoInt idInt course err
                Hget Hanno Hid Hfind Hin Htt). }
  unfold cal_SerializeTo, calcache_Set, mbind, Handler_bind, mret, Handler_ret, record, modify.
  cbn [calcache ctx trace].
  destruct (SerializeTo (createCal ToICS timetable course annoInt)) as [buf|err] eqn:Hser.
  2: { exact (SvSerializeError _ _ _ _ env items r annoInt idInt course timetable err
                Hget Hanno Hid Hfind Hin Htt Hser). }
  exact (SvFresh _ _ _ _ env items r annoInt idInt course timetable buf
           Hget Hanno Hid Hfind Hin Htt Hser).
Qed.

(** Case analysis on the path of [run env items r]; the facts about the
    final state that are in the context are rewritten along. *)
Ltac paths env items r :=
  let s := fresh "s" in
  let Hs := fresh "Hs" in
  pose proof (serve_Served env items r) as Hs;
  unfold statusOf, bodyOf, headerOf, cache_accesses, timetable_calls in *;
  set (s := run env items r) in *; clearbody s;
  inversion Hs; subst s; clear Hs;
  unfold mkState, plainText, calendarFile in *;
  cbn [calcache ctx trace Writer Status Body Header Errors Req List.filter
       is_cache_event is_timetable_call] in *;
  unfold http.StatusOK, http.StatusBadRequest, http.StatusNotFound,
    http.StatusInternalServerError in *.

(** *** The hit path *)

Lemma served_hit env items r cal :
  cache.Get (now_get env) (cacheKey r) items = Some cal →
  run env items r = mkState items r (calendarFile cal) [] [EvCacheGet (cacheKey r)].
Proof.
  intros Hget. pose proof (serve_Served env items r) as Hs.
  destruct Hs; congruence.
Qed.

(** *** What a successful run leaves under its key *)

Lemma served_entry env items r :
  statusOf (run env items r) = http.StatusOK →
  ∃ it, calcache (run env items r) !! cacheKey r = Some it
        ∧ Writer (ctx (run env items r)) = calendarFile (cache.Object it).
Proof.
  intros Hok. paths env items r; try discriminate.
  - match goal with Hg : cache.Get _ _ _ = Some _ |- _ =>
      apply Get_Some in Hg as (it & Hit & <- & _) end.
    by exists it.
  - rewrite lookup_calcache_Set. by eexists.
Qed.

(** A run that missed the cache and succeeded stored its body for ten
    minutes from the clock reading of its [Set]. *)
Lemma served_fresh_entry env items r :
  cache.Get (now_get env) (cacheKey r) items = None →
  statusOf (run env items r) = http.StatusOK →
  calcache (run env items r) =
    cache.Set_ calcache_defaultExpiration (now_set env) (cacheKey r)
      (bodyOf (run env items r)) cache.DefaultExpiration items
  ∧ calcache (run env items r) !! cacheKey r =
      Some {| cache.Object := bodyOf (run env items r);
              cache.Expiration := now_set env + 10 * time.Minute |}.
Proof.
  intros Hmiss Hok. paths env items r; try discriminate; try congruence.
  split; [done|]. by rewrite lookup_calcache_Set.
Qed.

(** A run either leaves the cache as it found it or adds its own key. *)
Lemma served_calcache env items r :
  calcache (run env items r) = items
  ∨ ∃ buf, calcache (run env items r) =
             cache.Set_ calcache_defaultExpiration (now_set env) (cacheKey r) buf
               cache.DefaultExpiration items.
Proof. paths env items r; eauto. Qed.

(** *** The synthesis path *)

Lemma served_valid_miss env items r annoInt idInt course :
  cache.Get (now_get env) (cacheKey r) items = None →
  strconv.Atoi (annoParam r) = Some annoInt →
  strconv.Atoi (idParam r) = Some idInt →
  FindById idInt = Some course →
  1 ≤ annoInt ≤ DurataAnni course →
  timetable_calls (run env items r) = [EvGetTimetable course annoInt (curriculumOf r)]
  ∧ statusOf (run env items r) ≠ http.StatusBadRequest.
Proof.
  intros Hmiss Hanno Hid Hfind Hin.
  paths env items r; simplify_eq; try done; lia.
Qed.

(** After a successful request, a request with the same cache key that
    arrives before the entry expires is answered from the cache, whatever
    the janitor did in between. *)
Lemma hit_after_success env1 env2 items r1 r2 ticks :
  cacheKey r2 = cacheKey r1 →
  statusOf (run env1 items r1) = http.StatusOK →
  (∀ it, calcache (run env1 items r1) !! cacheKey r1 = Some it →
         now_get env2 ≤ cache.Expiration it) →
  Forall (λ t, t ≤ now_get env2) ticks →
  run env2 (janitor ticks (calcache (run env1 items r1))) r2 =
    mkState (janitor ticks (calcache (run env1 items r1))) r2
      (Writer (ctx (run env1 items r1))) [] [EvCacheGet (cacheKey r1)].
Proof.
  intros Hkey Hok Hlive Hticks.
  destruct (served_entry env1 items r1 Hok) as (it & Hit & Hw).
  rewrite Hw, <- Hkey. apply served_hit.
  rewrite Get_janitor by done. apply Get_Some.
  exists it. rewrite Hkey. split_and!; [done..|].
  apply not_Expired. by apply Hlive.
Qed.

(** *** Soundness of the cache *)

Lemma cache_sound_empty :
  cache_sound FindById GetTimetable ToICS SerializeTo ∅.
Proof. intros k it Hk. by rewrite lookup_empty in Hk. Qed.

Lemma serve_cache_sound env items r :
  cache_sound FindById GetTimetable ToICS SerializeTo items →
  cache_sound FindById GetTimetable ToICS SerializeTo (calcache (run env items r)).
Proof.
  intros Hsound. paths env items r; try done.
  intros k it Hk. destruct (decide (k = cacheKey r)) as [->|Hne].
  - rewrite lookup_calcache_Set in Hk. injection Hk as <-.
    exists r, (upstream env), annoInt, idInt, course, timetable.
    split_and!; try done; lia.
  - rewrite lookup_Set_ne in Hk by done. by apply Hsound.
Qed.

(** In a sound cache, a request whose id parses and whose course resolves
    can only hit an entry if its year is in range: the entry was stored by
    a request with the same two path texts. *)
Lemma sound_hit_in_range (now : Z) items r cal annoInt idInt course :
  cache_sound FindById GetTimetable ToICS SerializeTo items →
  cache.Get now (cacheKey r) items = Some cal →
  strconv.Atoi (annoParam r) = Some annoInt →
  strconv.Atoi (idParam r) = Some idInt →
  FindById idInt = Some course →
  1 ≤ annoInt ≤ DurataAnni course.
Proof.
  intros Hsound Hget Hanno Hid Hfind.
  apply Get_Some in Hget as (it & Hit & _ & _).
  destruct (Hsound _ _ Hit)
    as (r' & w & annoInt' & idInt' & course' & tt' & Hkey & Hanno' & Hid' & Hfind' & Hin & _).
  destruct (cacheKey_inj r' r idInt' idInt Hid' Hid Hkey) as [Heqid Heqanno].
  rewrite Heqid in Hid'. rewrite Heqanno in Hanno'. by simplify_eq.
Qed.

(** ** The claims that hold for every deployment *)

(** C2, as amended: a request that fails one of the handler's 400 tests
    and whose key has no live cache entry is answered 400 after exactly one
    cache access, the [Get] that opens the handler; nothing is stored, the
    cache is left as it was and the timetable source is not called. *)
Theorem invalid_input_after_lookup env items r :
  invalid_input FindById r →
  cache.Get (now_get env) (cacheKey r) items = None →
  statusOf (run env items r) = http.StatusBadRequest
  ∧ hd_error (trace (run env items r)) = Some (EvCacheGet (cacheKey r))
  ∧ cache_accesses (run env items r) = [EvCacheGet (cacheKey r)]
  ∧ calcache (run env items r) = items
  ∧ timetable_calls (run env items r) = [].
Proof.
  intros Hbad Hmiss.
  destruct Hbad as [Hanno | [Hid | (annoInt & idInt & course & Hanno & Hid & Hfind & Hout)]];
    paths env items r; simplify_eq; try done; lia.
Qed.

(** C3, as amended: when the year text parses as an integer, whatever its
    value, and the id text parses to an identifier the course directory
    does not know, a request that misses the cache is answered 404 with
    body [Course not found], the timetable source is not called and the
    cache is left as it was. *)
Theorem unknown_course_not_found env items r annoInt idInt :
  cache.Get (now_get env) (cacheKey r) items = None →
  strconv.Atoi (annoParam r) = Some annoInt →
  strconv.Atoi (idParam r) = Some idInt →
  FindById idInt = None →
  statusOf (run env items r) = http.StatusNotFound
  ∧ bodyOf (run env items r) = "Course not found"
  ∧ timetable_calls (run env items r) = []
  ∧ calcache (run env items r) = items.
Proof.
  intros Hmiss Hanno Hid Hfind.
  paths env items r; simplify_eq; done.
Qed.

(** C4: when a request has succeeded and the same request is served again
    no later than the expiry instant of the entry held under its key, with
    any number of janitor sweeps in between, the second response equals the
    first (status, headers and body) and the second run only reads the
    cache: the timetable source is not called. *)
Theorem repeated_request_served_from_cache env1 env2 items r ticks :
  statusOf (run env1 items r) = http.StatusOK →
  (∀ it, calcache (run env1 items r) !! cacheKey r = Some it →
         now_get env2 ≤ cache.Expiration it) →
  Forall (λ t, t ≤ now_get env2) ticks →
  Writer (ctx (run env2 (janitor ticks (calcache (run env1 items r))) r))
    = Writer (ctx (run env1 items r))
  ∧ timetable_calls (run env2 (janitor ticks (calcache (run env1 items r))) r) = []
  ∧ trace (run env2 (janitor ticks (calcache (run env1 items r))) r)
      = [EvCacheGet (cacheKey r)].
Proof.
  intros Hok Hlive Hticks.
  by rewrite (hit_after_success env1 env2 items r r ticks eq_refl Hok Hlive Hticks).
Qed.

(** C5: a run that ends in an error response (any status other than 200)
    leaves the cache exactly as it found it and performs no [Set]; and if
    every entry of the cache held the bytes of a successful synthesis for
    its key before the run, so does every entry after it. *)
Theorem errors_are_never_cached env items r :
  (statusOf (run env items r) ≠ http.StatusOK →
     calcache (run env items r) = items
     ∧ ∀ k buf, ¬ In (EvCacheSet k buf) (trace (run env items r)))
  ∧ (cache_sound FindById GetTimetable ToICS SerializeTo items →
     cache_sound FindById GetTimetable ToICS SerializeTo (calcache (run env items r))).
Proof.
  split.
  - intros Herr. paths env items r; try done;
      (split; [done|]; intros k b Hin; simpl in Hin; intuition discriminate).
  - apply serve_cache_sound.
Qed.

(** C6: on a cache every entry of which was stored by the handler, for a
    request whose year and id parse and whose course resolves: the handler
    answers 400, with body [Invalid year], without calling the timetable
    source or touching the cache, exactly when year <= 0 or
    year > DurataAnni; when 1 <= year <= DurataAnni the request is accepted,
    which on a cache miss means that the timetable is fetched for that
    course, year and curriculum. *)
Theorem year_accepted_iff_in_range env items r annoInt idInt course :
  cache_sound FindById GetTimetable ToICS SerializeTo items →
  strconv.Atoi (annoParam r) = Some annoInt →
  strconv.Atoi (idParam r) = Some idInt →
  FindById idInt = Some course →
  (annoInt ≤ 0 ∨ annoInt > DurataAnni course ↔
     statusOf (run env items r) = http.StatusBadRequest)
  ∧ (annoInt ≤ 0 ∨ annoInt > DurataAnni course →
       bodyOf (run env items r) = "Invalid year"
       ∧ timetable_calls (run env items r) = []
       ∧ calcache (run env items r) = items)
  ∧ (1 ≤ annoInt ≤ DurataAnni course →
       cache.Get (now_get env) (cacheKey r) items = None →
       timetable_calls (run env items r)
         = [EvGetTimetable course annoInt (curriculumOf r)]).
Proof.
  intros Hsound Hanno Hid Hfind.
  destruct (cache.Get (now_get env) (cacheKey r) items) as [cal|] eqn:Hget.
  - pose proof (sound_hit_in_range (now_get env) items r cal annoInt idInt course
                  Hsound Hget Hanno Hid Hfind) as Hin.
    rewrite (served_hit env items r cal Hget).
    split_and!; [split|..]; intros; try done; lia.
  - paths env items r; simplify_eq;
      (split_and!; [split|..]; intros; try done; try lia).
Qed.

(** C7: every response of the handler with status 200 carries the calendar
    content type, the attachment disposition with the file name
    lezioni.ics, and the three CORS headers, the allowed origin being [*]. *)
Theorem success_response_metadata env items r :
  statusOf (run env items r) = http.StatusOK →
  headerOf (run env items r) "Content-Type" = Some "text/calendar; charset=utf-8"
  ∧ headerOf (run env items r) "Content-Disposition"
      = Some ("attachment; filename=" ++ "lezioni" ++ ".ics")
  ∧ headerOf (run env items r) "Access-Control-Allow-Origin" = Some "*"
  ∧ headerOf (run env items r) "Access-Control-Allow-Headers"
      = Some "Content-Type, Content-Length, Accept-Encoding, Authorization"
  ∧ headerOf (run env items r) "Access-Control-Allow-Methods" = Some "GET, HEAD, OPTIONS".
Proof.
  intros Hok. paths env items r; try discriminate; split_and!; reflexivity.
Qed.

(** C8: the calendar [createCal] builds is named
    [<Descrizione> - <year> year], is described by the Italian sentence
    [Orario delle lezioni del <year> anno del corso di <Descrizione>] with
    the same year and course name, keeps the components of the timetable's
    calendar, and its name and description depend on the course and the
    year only. *)
Theorem createCal_name_and_description timetable course year :
  CalName (createCal ToICS timetable course year)
    = Some (Descrizione course ++ " - " ++ fmt.decimal year ++ " year")
  ∧ CalDescription (createCal ToICS timetable course year)
    = Some ("Orario delle lezioni del " ++ fmt.decimal year
            ++ " anno del corso di " ++ Descrizione course)
  ∧ Components (createCal ToICS timetable course year) = Components (ToICS timetable)
  ∧ ∀ timetable',
      CalName (createCal ToICS timetable' course year)
        = CalName (createCal ToICS timetable course year)
      ∧ CalDescription (createCal ToICS timetable' course year)
        = CalDescription (createCal ToICS timetable course year).
Proof.
  assert (Hdesc : fmt.Sprintf "Orario delle lezioni del %d anno del corso di %s"
                    [fmt.D year; fmt.S (Descrizione course)]
                  = "Orario delle lezioni del " ++ fmt.decimal year
                    ++ " anno del corso di " ++ Descrizione course).
  { change (fmt.Sprintf _ _) with
      ("Orario delle lezioni del " ++ fmt.decimal year
       ++ " anno del corso di " ++ Descrizione course ++ "").
    by rewrite append_empty_r. }
  unfold createCal, SetName, SetDescription. cbn [CalName CalDescription Components].
  rewrite Hdesc. split_and!; try reflexivity. intros; split; reflexivity.
Qed.

(** C9: when the key built from the raw id and year path texts has a live
    cache entry, the run consists of the cache [Get] alone and the response
    is status 200 with the calendar headers and the cached bytes as body;
    no other input is looked at, so this holds whatever the id and year
    texts are, whether or not the course resolves, and for every query
    string put in place of the request's own. *)
Theorem cache_hit_skips_validation env items r cal :
  cache.Get (now_get env) (cacheKey r) items = Some cal →
  run env items r = mkState items r (calendarFile cal) [] [EvCacheGet (cacheKey r)]
  ∧ statusOf (run env items r) = http.StatusOK
  ∧ bodyOf (run env items r) = cal
  ∧ ∀ query,
      Writer (ctx (run env items {| Params := Params r; QueryValues := query |}))
        = calendarFile cal.
Proof.
  intros Hget. rewrite (served_hit env items r cal Hget).
  split_and!; try reflexivity.
  intros query.
  by rewrite (served_hit env items {| Params := Params r; QueryValues := query |} cal Hget).
Qed.

(** C10: two requests whose id texts parse to the same integer and whose
    year texts parse to the same integer, but which differ in either text,
    have different cache keys; served one after the other from a cache in
    which the second key is not live, the second misses the cache and, for
    a resolved course and a year in range, makes its own call to the
    timetable source; and when both succeed the cache holds one entry under
    each key, each with the bytes of its own response. *)
Theorem textual_variants_cached_apart env1 env2 items r1 r2 idInt annoInt :
  strconv.Atoi (idParam r1) = Some idInt →
  strconv.Atoi (idParam r2) = Some idInt →
  strconv.Atoi (annoParam r1) = Some annoInt →
  strconv.Atoi (annoParam r2) = Some annoInt →
  idParam r1 ≠ idParam r2 ∨ annoParam r1 ≠ annoParam r2 →
  cache.Get (now_get env2) (cacheKey r2) items = None →
  cacheKey r1 ≠ cacheKey r2
  ∧ (∀ course, FindById idInt = Some course → 1 ≤ annoInt ≤ DurataAnni course →
       timetable_calls (run env2 (calcache (run env1 items r1)) r2)
         = [EvGetTimetable course annoInt (curriculumOf r2)])
  ∧ (statusOf (run env1 items r1) = http.StatusOK →
     statusOf (run env2 (calcache (run env1 items r1)) r2) = http.StatusOK →
     ∃ it1 it2,
       calcache (run env2 (calcache (run env1 items r1)) r2) !! cacheKey r1 = Some it1
       ∧ calcache (run env2 (calcache (run env1 items r1)) r2) !! cacheKey r2 = Some it2
       ∧ cache.Object it1 = bodyOf (run env1 items r1)
       ∧ cache.Object it2 = bodyOf (run env2 (calcache (run env1 items r1)) r2)).
Proof.
  intros Hid1 Hid2 Hanno1 Hanno2 Hdiff Hmiss.
  assert (Hkey : cacheKey r1 ≠ cacheKey r2).
  { intros Heq. destruct (cacheKey_inj r1 r2 idInt idInt Hid1 Hid2 Heq). tauto. }
  assert (Hmiss' : cache.Get (now_get env2) (cacheKey r2) (calcache (run env1 items r1)) = None).
  { destruct (served_calcache env1 items r1) as [-> | [buf ->]]; [done|].
    by rewrite Get_Set_ne. }
  split_and!; [done | |].
  - intros course Hfind Hin.
    by destruct (served_valid_miss env2 _ r2 annoInt idInt course Hmiss' Hanno2 Hid2 Hfind Hin).
  - intros Hok1 Hok2.
    destruct (served_entry env1 items r1 Hok1) as (it1 & Hit1 & Hw1).
    destruct (served_fresh_entry env2 _ r2 Hmiss' Hok2) as [Hc2 Hit2].
    exists it1. eexists. split_and!; [|exact Hit2| |reflexivity].
    + rewrite Hc2, lookup_Set_ne by done. exact Hit1.
    + unfold bodyOf. by rewrite Hw1.
Qed.

End Properties.

(** ** The claims on the demo deployment *)

(** C1: the code at the failing input.  [GET /cal/42/1?curriculum=A] is
    served first and succeeds; [GET /cal/42/1?curriculum=B] follows.  The
    two requests have the same cache key, so the second one is answered
    with the bytes synthesized for curriculum A without any call to the
    timetable source, although a synthesis for curriculum B gives other
    bytes. *)
Theorem curriculum_B_gets_calendar_of_A :
  cacheKey Demo.first_year_B = cacheKey Demo.first_year_A
  ∧ Value (curriculumOf Demo.first_year_B) ≠ Value (curriculumOf Demo.first_year_A)
  ∧ statusOf Demo.after_first_year_A = http.StatusOK
  ∧ statusOf (Demo.serve (Demo.at_ 2000 true) (calcache Demo.after_first_year_A)
                Demo.first_year_B) = http.StatusOK
  ∧ bodyOf (Demo.serve (Demo.at_ 2000 true) (calcache Demo.after_first_year_A)
              Demo.first_year_B)
    = bodyOf Demo.after_first_year_A
  ∧ timetable_calls (Demo.serve (Demo.at_ 2000 true) (calcache Demo.after_first_year_A)
                       Demo.first_year_B) = []
  ∧ bodyOf (Demo.serve (Demo.at_ 2000 true) ∅ Demo.first_year_B)
    ≠ bodyOf Demo.after_first_year_A.
Proof. split_and!; vm_compute; congruence. Qed.

(** C2 fails as stated: [GET /cal/42/abc] fails validation (the year is not
    a number), yet the run starts with a cache [Get], before the year is
    parsed. *)
Lemma invalid_year_still_reads_cache :
  invalid_input Demo.FindById Demo.year_abc
  ∧ trace (Demo.serve Demo.morning ∅ Demo.year_abc)
    = [EvCacheGet "42-abc"; EvAtoi "abc"]
  ∧ cache_accesses (Demo.serve Demo.morning ∅ Demo.year_abc) ≠ [].
Proof.
  split_and!.
  - left. reflexivity.
  - reflexivity.
  - vm_compute. discriminate.
Qed.

(** C3 fails as stated: course 9999 is not in the directory and nothing is
    cached, yet [GET /cal/9999/abc] is answered 400 [Invalid year], not
    404. *)
Lemma unknown_course_with_bad_year_is_400 :
  strconv.Atoi (idParam Demo.unknown_course_year_abc) = Some 9999
  ∧ Demo.FindById 9999 = None
  ∧ cache.Get (now_get Demo.morning) (cacheKey Demo.unknown_course_year_abc) ∅ = None
  ∧ statusOf (Demo.serve Demo.morning ∅ Demo.unknown_course_year_abc)
    = http.StatusBadRequest
  ∧ bodyOf (Demo.serve Demo.morning ∅ Demo.unknown_course_year_abc) = "Invalid year"
  ∧ statusOf (Demo.serve Demo.morning ∅ Demo.unknown_course_year_abc)
    ≠ http.StatusNotFound.
Proof. split_and!; vm_compute; congruence. Qed.

(** ** The general claims at concrete requests *)

(** [GET /cal/42/5] on a three-year course: 400 after one cache read. *)
Lemma invalid_input_after_lookup_witness :
  (invalid_input Demo.FindById Demo.fifth_year
   ∧ cache.Get (now_get Demo.morning) (cacheKey Demo.fifth_year) ∅ = None)
  ∧ statusOf (Demo.serve Demo.morning ∅ Demo.fifth_year) = http.StatusBadRequest
  ∧ hd_error (trace (Demo.serve Demo.morning ∅ Demo.fifth_year))
    = Some (EvCacheGet (cacheKey Demo.fifth_year))
  ∧ cache_accesses (Demo.serve Demo.morning ∅ Demo.fifth_year)
    = [EvCacheGet (cacheKey Demo.fifth_year)]
  ∧ calcache (Demo.serve Demo.morning ∅ Demo.fifth_year) = ∅
  ∧ timetable_calls (Demo.serve Demo.morning ∅ Demo.fifth_year) = [].
Proof.
  assert (Hbad : invalid_input Demo.FindById Demo.fifth_year).
  { right. right. exists 5, 42, Demo.informatica.
    split_and!; [reflexivity | reflexivity | reflexivity | right; simpl; lia]. }
  assert (Hmiss : cache.Get (now_get Demo.morning) (cacheKey Demo.fifth_year) ∅ = None)
    by reflexivity.
  split; [by split|].
  exact (invalid_input_after_lookup Demo.FindById Demo.GetTimetable Demo.ToICS
           Demo.SerializeTo Demo.morning ∅ Demo.fifth_year Hbad Hmiss).
Defined.

(** [GET /cal/9999/-7]: the year parses, the course is unknown, 404. *)
Lemma unknown_course_not_found_witness :
  (cache.Get (now_get Demo.morning) (cacheKey Demo.unknown_course) ∅ = None
   ∧ strconv.Atoi (annoParam Demo.unknown_course) = Some (-7)
   ∧ strconv.Atoi (idParam Demo.unknown_course) = Some 9999
   ∧ Demo.FindById 9999 = None)
  ∧ statusOf (Demo.serve Demo.morning ∅ Demo.unknown_course) = http.StatusNotFound
  ∧ bodyOf (Demo.serve Demo.morning ∅ Demo.unknown_course) = "Course not found"
  ∧ timetable_calls (Demo.serve Demo.morning ∅ Demo.unknown_course) = []
  ∧ calcache (Demo.serve Demo.morning ∅ Demo.unknown_course) = ∅.
Proof.
  split; [split_and!; reflexivity|].
  apply (unknown_course_not_found Demo.FindById Demo.GetTimetable Demo.ToICS
           Demo.SerializeTo Demo.morning ∅ Demo.unknown_course (-7) 9999);
    reflexivity.
Defined.

(** [GET /cal/42/1] twice: the second request comes at the very instant
    the entry expires, after a sweep of the janitor and with the upstream
    out of service, and is answered like the first. *)
Lemma repeated_request_served_from_cache_witness :
  (statusOf Demo.after_first_year = http.StatusOK
   ∧ (∀ it, calcache Demo.after_first_year !! cacheKey Demo.first_year = Some it →
            now_get Demo.ten_minutes_later ≤ cache.Expiration it)
   ∧ Forall (λ t, t ≤ now_get Demo.ten_minutes_later) [5 * time.Minute])
  ∧ Writer (ctx (Demo.serve Demo.ten_minutes_later
                   (janitor [5 * time.Minute] (calcache Demo.after_first_year))
                   Demo.first_year))
    = Writer (ctx Demo.after_first_year)
  ∧ timetable_calls (Demo.serve Demo.ten_minutes_later
                       (janitor [5 * time.Minute] (calcache Demo.after_first_year))
                       Demo.first_year) = []
  ∧ trace (Demo.serve Demo.ten_minutes_later
             (janitor [5 * time.Minute] (calcache Demo.after_first_year))
             Demo.first_year)
    = [EvCacheGet (cacheKey Demo.first_year)].
Proof.
  assert (Hok : statusOf Demo.after_first_year = http.StatusOK) by reflexivity.
  assert (Hlive : ∀ it,
            calcache Demo.after_first_year !! cacheKey Demo.first_year = Some it →
            now_get Demo.ten_minutes_later ≤ cache.Expiration it).
  { intros it Hit. vm_compute in Hit. injection Hit as <-. vm_compute. discriminate. }
  assert (Hticks : Forall (λ t, t ≤ now_get Demo.ten_minutes_later) [5 * time.Minute]).
  { constructor; [vm_compute; discriminate | constructor]. }
  split; [by split_and!|].
  exact (repeated_request_served_from_cache Demo.FindById Demo.GetTimetable Demo.ToICS
           Demo.SerializeTo Demo.morning Demo.ten_minutes_later ∅ Demo.first_year
           [5 * time.Minute] Hok Hlive Hticks).
Defined.

(** A serialization failure after a success: the request for a corrupt
    timetable is answered 500 and the cache still holds exactly the entry
    of the first request, which is sound. *)
Lemma errors_are_never_cached_witness :
  (statusOf (Demo.serve (Demo.at_ 2000 true) (calcache Demo.after_first_year)
               Demo.corrupt_year) ≠ http.StatusOK
   ∧ cache_sound Demo.FindById Demo.GetTimetable Demo.ToICS Demo.SerializeTo
       (calcache Demo.after_first_year))
  ∧ (calcache (Demo.serve (Demo.at_ 2000 true) (calcache Demo.after_first_year)
                 Demo.corrupt_year) = calcache Demo.after_first_year
     ∧ ∀ k buf, ¬ In (EvCacheSet k buf)
                   (trace (Demo.serve (Demo.at_ 2000 true) (calcache Demo.after_first_year)
                             Demo.corrupt_year)))
  ∧ cache_sound Demo.FindById Demo.GetTimetable Demo.ToICS Demo.SerializeTo
      (calcache (Demo.serve (Demo.at_ 2000 true) (calcache Demo.after_first_year)
                   Demo.corrupt_year)).
Proof.
  assert (Herr : statusOf (Demo.serve (Demo.at_ 2000 true) (calcache Demo.after_first_year)
                             Demo.corrupt_year) ≠ http.StatusOK).
  { vm_compute. discriminate. }
  assert (Hsound : cache_sound Demo.FindById Demo.GetTimetable Demo.ToICS Demo.SerializeTo
                     (calcache Demo.after_first_year)).
  { apply (errors_are_never_cached Demo.FindById Demo.GetTimetable Demo.ToICS
             Demo.SerializeTo Demo.morning ∅ Demo.first_year).
    intros k it Hk. by rewrite lookup_empty in Hk. }
  split; [by split|].
  destruct (errors_are_never_cached Demo.FindById Demo.GetTimetable Demo.ToICS
              Demo.SerializeTo (Demo.at_ 2000 true) (calcache Demo.after_first_year)
              Demo.corrupt_year) as [Hkeep Hinv].
  split; [exact (Hkeep Herr) | exact (Hinv Hsound)].
Defined.

(** [GET /cal/42/5] on a three-year course, served from the cache the
    first request left: year 5 is out of range. *)
Lemma year_accepted_iff_in_range_witness :
  (cache_sound Demo.FindById Demo.GetTimetable Demo.ToICS Demo.SerializeTo
     (calcache Demo.after_first_year)
   ∧ strconv.Atoi (annoParam Demo.fifth_year) = Some 5
   ∧ strconv.Atoi (idParam Demo.fifth_year) = Some 42
   ∧ Demo.FindById 42 = Some Demo.informatica)
  ∧ (5 ≤ 0 ∨ 5 > DurataAnni Demo.informatica ↔
       statusOf (Demo.serve (Demo.at_ 2000 true) (calcache Demo.after_first_year)
                   Demo.fifth_year) = http.StatusBadRequest)
  ∧ (5 ≤ 0 ∨ 5 > DurataAnni Demo.informatica →
       bodyOf (Demo.serve (Demo.at_ 2000 true) (calcache Demo.after_first_year)
                 Demo.fifth_year) = "Invalid year"
       ∧ timetable_calls (Demo.serve (Demo.at_ 2000 true) (calcache Demo.after_first_year)
                            Demo.fifth_year) = []
       ∧ calcache (Demo.serve (Demo.at_ 2000 true) (calcache Demo.after_first_year)
                     Demo.fifth_year) = calcache Demo.after_first_year).
Proof.
  assert (Hsound : cache_sound Demo.FindById Demo.GetTimetable Demo.ToICS Demo.SerializeTo
                     (calcache Demo.after_first_year)).
  { apply serve_cache_sound, cache_sound_empty. }
  split; [split_and!; [exact Hsound | reflexivity..]|].
  destruct (year_accepted_iff_in_range Demo.FindById Demo.GetTimetable Demo.ToICS
              Demo.SerializeTo (Demo.at_ 2000 true) (calcache Demo.after_first_year)
              Demo.fifth_year 5 42 Demo.informatica Hsound eq_refl eq_refl eq_refl)
    as (Hiff & Hout & _).
  split; [exact Hiff | exact Hout].
Defined.

(** The headers of the response to [GET /cal/42/1]. *)
Lemma success_response_metadata_witness :
  statusOf Demo.after_first_year = http.StatusOK
  ∧ headerOf Demo.after_first_year "Content-Type" = Some "text/calendar; charset=utf-8"
  ∧ headerOf Demo.after_first_year "Content-Disposition"
      = Some ("attachment; filename=" ++ "lezioni" ++ ".ics")
  ∧ headerOf Demo.after_first_year "Access-Control-Allow-Origin" = Some "*"
  ∧ headerOf Demo.after_first_year "Access-Control-Allow-Headers"
      = Some "Content-Type, Content-Length, Accept-Encoding, Authorization"
  ∧ headerOf Demo.after_first_year "Access-Control-Allow-Methods"
      = Some "GET, HEAD, OPTIONS".
Proof.
  split; [reflexivity|].
  apply (success_response_metadata Demo.FindById Demo.GetTimetable Demo.ToICS
           Demo.SerializeTo Demo.morning ∅ Demo.first_year).
  reflexivity.
Defined.

(** A cache that holds bytes under the key [x-y]: the request with id [x]
    and year [y], neither of which is a number, is answered 200 with those
    bytes. *)
Lemma cache_hit_skips_validation_witness :
  cache.Get 7 (cacheKey (Demo.request "x" "y" []))
    {[ "x-y" := {| cache.Object := "BEGIN:VCALENDAR"; cache.Expiration := 9 |} ]}
    = Some "BEGIN:VCALENDAR"
  ∧ strconv.Atoi "x" = None
  ∧ strconv.Atoi "y" = None
  ∧ Demo.serve (Demo.at_ 7 false)
      {[ "x-y" := {| cache.Object := "BEGIN:VCALENDAR"; cache.Expiration := 9 |} ]}
      (Demo.request "x" "y" [])
    = mkState {[ "x-y" := {| cache.Object := "BEGIN:VCALENDAR"; cache.Expiration := 9 |} ]}
        (Demo.request "x" "y" []) (calendarFile "BEGIN:VCALENDAR") []
        [EvCacheGet (cacheKey (Demo.request "x" "y" []))]
  ∧ statusOf (Demo.serve (Demo.at_ 7 false)
      {[ "x-y" := {| cache.Object := "BEGIN:VCALENDAR"; cache.Expiration := 9 |} ]}
      (Demo.request "x" "y" [])) = http.StatusOK.
Proof.
  assert (Hget : cache.Get (now_get (Demo.at_ 7 false)) (cacheKey (Demo.request "x" "y" []))
            {[ "x-y" := {| cache.Object := "BEGIN:VCALENDAR"; cache.Expiration := 9 |} ]}
          = Some "BEGIN:VCALENDAR") by reflexivity.
  destruct (cache_hit_skips_validation Demo.FindById Demo.GetTimetable Demo.ToICS
              Demo.SerializeTo (Demo.at_ 7 false) _ (Demo.request "x" "y" []) _ Hget)
    as (Hrun & Hstatus & _).
  split_and!; [exact Hget | reflexivity | reflexivity | exact Hrun | exact Hstatus].
Defined.

(** [GET /cal/42/1] and then [GET /cal/+42/01]: same integers, two keys,
    two syntheses, two entries. *)
Lemma textual_variants_cached_apart_witness :
  (strconv.Atoi (idParam Demo.first_year) = Some 42
   ∧ strconv.Atoi (idParam Demo.first_year_padded) = Some 42
   ∧ strconv.Atoi (annoParam Demo.first_year) = Some 1
   ∧ strconv.Atoi (annoParam Demo.first_year_padded) = Some 1
   ∧ (idParam Demo.first_year ≠ idParam Demo.first_year_padded
      ∨ annoParam Demo.first_year ≠ annoParam Demo.first_year_padded)
   ∧ cache.Get (now_get (Demo.at_ 2000 true)) (cacheKey Demo.first_year_padded) ∅ = None)
  ∧ cacheKey Demo.first_year ≠ cacheKey Demo.first_year_padded
  ∧ timetable_calls (Demo.serve (Demo.at_ 2000 true) (calcache Demo.after_first_year)
                       Demo.first_year_padded)
    = [EvGetTimetable Demo.informatica 1 (curriculumOf Demo.first_year_padded)]
  ∧ ∃ it1 it2,
      calcache (Demo.serve (Demo.at_ 2000 true) (calcache Demo.after_first_year)
                  Demo.first_year_padded) !! cacheKey Demo.first_year = Some it1
      ∧ calcache (Demo.serve (Demo.at_ 2000 true) (calcache Demo.after_first_year)
                    Demo.first_year_padded) !! cacheKey Demo.first_year_padded = Some it2
      ∧ cache.Object it1 = bodyOf Demo.after_first_year
      ∧ cache.Object it2
        = bodyOf (Demo.serve (Demo.at_ 2000 true) (calcache Demo.after_first_year)
                    Demo.first_year_padded).
Proof.
  assert (Hdiff : idParam Demo.first_year ≠ idParam Demo.first_year_padded
                  ∨ annoParam Demo.first_year ≠ annoParam Demo.first_year_padded).
  { left. vm_compute. discriminate. }
  assert (Hmiss : cache.Get (now_get (Demo.at_ 2000 true))
                     (cacheKey Demo.first_year_padded) ∅ = None) by reflexivity.
  split; [split_and!; try reflexivity; exact Hdiff|].
  destruct (textual_variants_cached_apart Demo.FindById Demo.GetTimetable Demo.ToICS
              Demo.SerializeTo Demo.morning (Demo.at_ 2000 true) ∅
              Demo.first_year Demo.first_year_padded 42 1
              eq_refl eq_refl eq_refl eq_refl Hdiff Hmiss) as (Hkey & Hcall & Hboth).
  split_and!; [exact Hkey | | ].
  - apply (Hcall Demo.informatica); [reflexivity | simpl; lia].
  - apply Hboth; reflexivity.
Defined.

(** * Further properties of main.go *)

(** ** Printing an int and parsing it back *)

Lemma digits_cons (ch : ascii) (s : string) (n d : Z) :
  strconv.digit ch = Some d →
  strconv.digits (String ch s) n = strconv.digits s (n * 10 + d).
Proof. intros Hd. simpl. by rewrite Hd. Qed.

Ltac digit_step IH k :=
  rewrite (digits_cons _ _ _ k) by reflexivity;
  match goal with
  | |- strconv.digits _ ?acc = Some (Z.pos (Pos.of_uint_acc _ ?a)) =>
      replace acc with (Z.pos a)
        by (rewrite ?Pos2Z.inj_add, ?Pos2Z.inj_mul; lia);
      apply IH
  end.

Lemma digits_of_uint_acc (d : Decimal.uint) :
  ∀ p, strconv.digits (NilEmpty.string_of_uint d) (Z.pos p)
       = Some (Z.pos (Pos.of_uint_acc d p)).
Proof.
  induction d as [|d IH|d IH|d IH|d IH|d IH|d IH|d IH|d IH|d IH|d IH];
    intros p; cbn [NilEmpty.string_of_uint Pos.of_uint_acc]; [reflexivity|..].
  - digit_step IH 0.
  - digit_step IH 1.
  - digit_step IH 2.
  - digit_step IH 3.
  - digit_step IH 4.
  - digit_step IH 5.
  - digit_step IH 6.
  - digit_step IH 7.
  - digit_step IH 8.
  - digit_step IH 9.
Qed.

Lemma digits_of_uint (d : Decimal.uint) :
  strconv.digits (NilEmpty.string_of_uint d) 0 = Some (Z.of_N (Pos.of_uint d)).
Proof.
  induction d as [|d IH|d IH|d IH|d IH|d IH|d IH|d IH|d IH|d IH|d IH];
    cbn [NilEmpty.string_of_uint Pos.of_uint]; [reflexivity|..].
  - by rewrite (digits_cons _ _ _ 0).
  - rewrite (digits_cons _ _ _ 1) by reflexivity. apply digits_of_uint_acc.
  - rewrite (digits_cons _ _ _ 2) by reflexivity. apply digits_of_uint_acc.
  - rewrite (digits_cons _ _ _ 3) by reflexivity. apply digits_of_uint_acc.
  - rewrite (digits_cons _ _ _ 4) by reflexivity. apply digits_of_uint_acc.
  - rewrite (digits_cons _ _ _ 5) by reflexivity. apply digits_of_uint_acc.
  - rewrite (digits_cons _ _ _ 6) by reflexivity. apply digits_of_uint_acc.
  - rewrite (digits_cons _ _ _ 7) by reflexivity. apply digits_of_uint_acc.
  - rewrite (digits_cons _ _ _ 8) by reflexivity. apply digits_of_uint_acc.
  - rewrite (digits_cons _ _ _ 9) by reflexivity. apply digits_of_uint_acc.
Qed.

Lemma minInt_eq : strconv.minInt = -9223372036854775808.
Proof. reflexivity. Qed.

Lemma maxInt_eq : strconv.maxInt = 9223372036854775807.
Proof. reflexivity. Qed.

(** The numeral of a positive number starts with a digit, not a sign. *)
Lemma string_of_to_uint (p : positive) :
  ∃ ch rest, NilZero.string_of_uint (Pos.to_uint p) = String ch rest
             ∧ NilEmpty.string_of_uint (Pos.to_uint p) = String ch rest
             ∧ strconv.is_sign ch = false.
Proof.
  pose proof (Unsigned.to_uint_nonnil p) as Hnil.
  destruct (Pos.to_uint p); [done|..]; eexists _, _; split_and!; reflexivity.
Qed.

Lemma digits_decimal_pos (p : positive) :
  strconv.digits (NilEmpty.string_of_uint (Pos.to_uint p)) 0 = Some (Z.pos p).
Proof. by rewrite digits_of_uint, Unsigned.of_to. Qed.

Lemma Atoi_decimal_pos (p : positive) :
  strconv.Atoi (fmt.decimal (Z.pos p))
  = if Z.pos p <=? strconv.maxInt then Some (Z.pos p) else None.
Proof.
  unfold fmt.decimal. cbn [Z.to_int NilZero.string_of_int].
  destruct (string_of_to_uint p) as (ch & rest & -> & Hs & Hsign).
  pose proof (digits_decimal_pos p) as Hd. rewrite Hs in Hd.
  unfold strconv.Atoi. rewrite Hsign, Hd.
  assert (Ascii.eqb ch "-" = false) as ->.
  { unfold strconv.is_sign in Hsign. by apply orb_false_iff in Hsign as [-> _]. }
  assert ((strconv.minInt <=? Z.pos p) = true) as ->
    by (apply Z.leb_le; rewrite minInt_eq; lia).
  reflexivity.
Qed.

Lemma Atoi_minus (ch : ascii) (rest : string) :
  strconv.Atoi (String "-" (String ch rest))
  = match strconv.digits (String ch rest) 0 with
    | None => None
    | Some n =>
        if (strconv.minInt <=? - n) && (- n <=? strconv.maxInt) then Some (- n) else None
    end.
Proof. reflexivity. Qed.

Lemma Atoi_decimal_neg (p : positive) :
  strconv.Atoi (fmt.decimal (Z.neg p))
  = if strconv.minInt <=? Z.neg p then Some (Z.neg p) else None.
Proof.
  unfold fmt.decimal. cbn [Z.to_int NilZero.string_of_int].
  destruct (string_of_to_uint p) as (ch & rest & -> & Hs & Hsign).
  pose proof (digits_decimal_pos p) as Hd. rewrite Hs in Hd.
  rewrite Atoi_minus, Hd. change (- Z.pos p) with (Z.neg p).
  assert ((Z.neg p <=? strconv.maxInt) = true) as ->
    by (apply Z.leb_le; rewrite maxInt_eq; lia).
  by rewrite andb_true_r.
Qed.

Lemma Atoi_reads_back_decimal_aux (n : Z) :
  strconv.Atoi (fmt.decimal n)
  = if (strconv.minInt <=? n) && (n <=? strconv.maxInt) then Some n else None.
Proof.
  destruct n as [|p|p].
  - reflexivity.
  - rewrite Atoi_decimal_pos.
    assert ((strconv.minInt <=? Z.pos p) = true) as ->
      by (apply Z.leb_le; rewrite minInt_eq; lia).
    reflexivity.
  - rewrite Atoi_decimal_neg.
    assert ((Z.neg p <=? strconv.maxInt) = true) as ->
      by (apply Z.leb_le; rewrite maxInt_eq; lia).
    by rewrite andb_true_r.
Qed.

Lemma Atoi_decimal (n : Z) :
  strconv.minInt ≤ n ≤ strconv.maxInt → strconv.Atoi (fmt.decimal n) = Some n.
Proof.
  intros Hn. rewrite Atoi_reads_back_decimal_aux.
  destruct (Z.leb_spec strconv.minInt n), (Z.leb_spec n strconv.maxInt);
    simpl; [done|lia..].
Qed.

(** X1: [strconv.Atoi] reads back what [%d] prints: the numeral of an
    integer in the range of [int] parses to that integer, and the numeral
    of an integer outside the range is refused. *)
Theorem Atoi_reads_back_decimal (n : Z) :
  strconv.Atoi (fmt.Sprintf "%d" [fmt.D n])
  = if (strconv.minInt <=? n) && (n <=? strconv.maxInt) then Some n else None.
Proof.
  change (fmt.Sprintf "%d" [fmt.D n]) with (fmt.decimal n ++ "").
  rewrite append_empty_r. apply Atoi_reads_back_decimal_aux.
Qed.

(** ** [anniRange] *)

Lemma wrap_small (z : Z) :
  strconv.minInt ≤ z ≤ strconv.maxInt → runtime.wrap z = z.
Proof.
  rewrite minInt_eq, maxInt_eq. unfold runtime.wrap. intros Hz.
  change (2 ^ 63) with 9223372036854775808.
  change (2 ^ 64) with 18446744073709551616.
  rewrite Z.mod_small by lia. lia.
Qed.

(** The loop, when it returns, has appended [i], [i+1], ..., [end]. *)
Lemma anniRange_loop_Returned (fuel : nat) :
  ∀ i end_ r l,
    strconv.minInt ≤ i → i ≤ end_ + 1 → end_ < strconv.maxInt →
    anniRange_loop fuel i end_ r = Returned l →
    l = (r ++ seqZ i (end_ + 1 - i))%list.
Proof.
  induction fuel as [|fuel IH]; intros i end_ r l Hmin Hi Hend Hrun; simpl in Hrun.
  - destruct (Z.leb_spec i end_); [done|].
    injection Hrun as <-. replace (end_ + 1 - i) with 0 by lia. by rewrite app_nil_r.
  - destruct (Z.leb_spec i end_).
    + rewrite wrap_small in Hrun by lia.
      apply IH in Hrun; [|lia..]. subst l.
      rewrite (seqZ_cons i) by lia. rewrite <- app_assoc. simpl.
      do 3 f_equal; lia.
    + injection Hrun as <-. replace (end_ + 1 - i) with 0 by lia. by rewrite app_nil_r.
Qed.


Lemma makeslice_int_bounds (cap : Z) :
  runtime.makeslice_int 0 cap = true ↔ 0 ≤ cap ≤ 2 ^ 45.
Proof.
  unfold runtime.makeslice_int, runtime.maxAlloc.
  change (2 ^ 48) with 281474976710656. change (2 ^ 45) with 35184372088832.
  rewrite !andb_true_iff, !Z.leb_le. lia.
Qed.

Lemma anniRange_Returned (fuel : nat) (end_ : Z) (l : list Z) :
  anniRange fuel end_ = Returned l → 0 ≤ end_ ≤ 2 ^ 45 ∧ l = seqZ 1 end_.
Proof.
  unfold anniRange. destruct (runtime.makeslice_int 0 end_) eqn:Hm; [|done].
  apply makeslice_int_bounds in Hm. intros Hrun. split; [done|].
  change (2 ^ 45) with 35184372088832 in Hm.
  apply anniRange_loop_Returned in Hrun; [|rewrite ?minInt_eq, ?maxInt_eq; lia..].
  subst l. simpl. f_equal. lia.
Qed.


(** X3: [anniRange] panics in [make], before the loop and whatever the
    fuel, when [end] is negative or above 2^45; and it never returns
    anything but the years 1..end. *)
Theorem anniRange_panics_or_counts (fuel : nat) (end_ : Z) :
  (end_ < 0 ∨ end_ > 2 ^ 45 → anniRange fuel end_ = Panicked)
  ∧ (∀ l, anniRange fuel end_ = Returned l → 0 ≤ end_ ∧ l = seqZ 1 end_).
Proof.
  split.
  - intros Hout. unfold anniRange.
    destruct (runtime.makeslice_int 0 end_) eqn:Hm; [|done].
    apply makeslice_int_bounds in Hm. lia.
  - intros l Hrun. destruct (anniRange_Returned fuel end_ l Hrun). split; [lia|done].
Qed.

(** ** [successCalendar] on any context *)

(** X4: whatever the context holds, [successCalendar] replaces the values
    of its five headers, leaves every other header, the cache, the request
    and the recorded errors alone, appends the calendar to the body, and
    sets status 200 unless the response had already started. *)
Theorem successCalendar_on_any_context (cal : string) (s : State) :
  headerOf (successCalendar cal s).2 "Content-Type" = Some "text/calendar; charset=utf-8"
  ∧ headerOf (successCalendar cal s).2 "Content-Disposition"
    = Some "attachment; filename=lezioni.ics"
  ∧ headerOf (successCalendar cal s).2 "Access-Control-Allow-Origin" = Some "*"
  ∧ headerOf (successCalendar cal s).2 "Access-Control-Allow-Headers"
    = Some "Content-Type, Content-Length, Accept-Encoding, Authorization"
  ∧ headerOf (successCalendar cal s).2 "Access-Control-Allow-Methods"
    = Some "GET, HEAD, OPTIONS"
  ∧ (∀ key, key ∉ calendar_header_keys →
            headerOf (successCalendar cal s).2 key = headerOf s key)
  ∧ bodyOf (successCalendar cal s).2 = bodyOf s ++ cal
  ∧ statusOf (successCalendar cal s).2
    = (if Written (Writer (ctx s)) then statusOf s else http.StatusOK)
  ∧ calcache (successCalendar cal s).2 = calcache s
  ∧ trace (successCalendar cal s).2 = trace s
  ∧ Errors (ctx (successCalendar cal s).2) = Errors (ctx s)
  ∧ Req (ctx (successCalendar cal s).2) = Req (ctx s).
Proof.
  set (h := Header (Writer (ctx s))).
  set (h' := <["Access-Control-Allow-Methods" := "GET, HEAD, OPTIONS"]>
             (<["Access-Control-Allow-Headers" :=
                  "Content-Type, Content-Length, Accept-Encoding, Authorization"]>
             (<["Access-Control-Allow-Origin" := "*"]>
             (<["Content-Disposition" := "attachment; filename=lezioni.ics"]>
             (<["Content-Type" := "text/calendar; charset=utf-8"]> h))))).
  set (s1 := {| calcache := calcache s;
                ctx := {| Req := Req (ctx s);
                          Writer := {| Header := h';
                                       Status := Status (Writer (ctx s));
                                       Written := Written (Writer (ctx s));
                                       Body := Body (Writer (ctx s)) |};
                          Errors := Errors (ctx s) |};
                trace := trace s |}).
  assert (Hrun : successCalendar cal s = c_String http.StatusOK cal s1) by reflexivity.
  assert (Hct : h' !! "Content-Type" = Some "text/calendar; charset=utf-8").
  { unfold h'. by rewrite !lookup_insert_ne, lookup_insert_eq by done. }
  rewrite Hrun. unfold c_String, withWriter, headerOf, bodyOf, statusOf.
  cbn [snd fst calcache ctx trace Writer Header Status Body Written Errors Req s1].
  unfold s1.
  cbn [snd fst calcache ctx trace Writer Header Status Body Written Errors Req].
  rewrite Hct. unfold h'.
  split_and!; try reflexivity.
  - by rewrite !lookup_insert_ne, lookup_insert_eq by done.
  - by rewrite !lookup_insert_ne, lookup_insert_eq by done.
  - by rewrite !lookup_insert_ne, lookup_insert_eq by done.
  - by rewrite !lookup_insert_ne, lookup_insert_eq by done.
  - by rewrite lookup_insert_eq.
  - intros key Hkey. unfold calendar_header_keys in Hkey.
    rewrite !not_elem_of_cons in Hkey. destruct Hkey as (? & ? & ? & ? & ? & _).
    by rewrite !lookup_insert_ne by done.
Qed.

(** ** More on [getCoursesCal] *)

Lemma Get_DeleteExpired_None (t now : Z) (k : string) (items : gmap string cache.Item) :
  cache.Get now k items = None → cache.Get now k (cache.DeleteExpired t items) = None.
Proof.
  unfold cache.Get, cache.DeleteExpired. rewrite map_lookup_filter.
  destruct (items !! k) as [it|]; simpl; [|done].
  case_guard; simpl; done.
Qed.

Lemma Get_janitor_None (ticks : list Z) (now : Z) (k : string)
    (items : gmap string cache.Item) :
  cache.Get now k items = None → cache.Get now k (janitor ticks items) = None.
Proof.
  unfold janitor. revert items.
  induction ticks as [|t ticks IH]; intros items Hnone; simpl; [done|].
  by apply IH, Get_DeleteExpired_None.
Qed.

Section MoreProperties.

Context {Timetable Component World : Type}.
Variable FindById : Z → option Course.
Variable GetTimetable : World → Course → Z → Curriculum → result Timetable.
Variable ToICS : Timetable → Calendar Component.
Variable SerializeTo : Calendar Component → result string.

Local Abbreviation run := (serve FindById GetTimetable ToICS SerializeTo).
Local Abbreviation sound := (cache_sound FindById GetTimetable ToICS SerializeTo).

(** Case analysis on the path of [run env items r]. *)
Ltac walk env items r :=
  let s := fresh "s" in
  let Hs := fresh "Hs" in
  pose proof (serve_Served FindById GetTimetable ToICS SerializeTo env items r) as Hs;
  unfold statusOf, bodyOf, headerOf, cache_accesses, timetable_calls in *;
  set (s := run env items r) in *; clearbody s;
  inversion Hs; subst s; clear Hs;
  unfold mkState, plainText, calendarFile in *;
  cbn [calcache ctx trace Writer Status Body Header Written Errors Req List.filter
       is_cache_event is_timetable_call] in *;
  unfold http.StatusOK, http.StatusBadRequest, http.StatusNotFound,
    http.StatusInternalServerError in *.

(** X5: every run answers with exactly one of 200, 400, 404 and 500 and
    starts the response; a 200 has the calendar content type, and every other
    answer is plain text without any CORS header. *)
Theorem response_shape env items r :
  Written (Writer (ctx (run env items r))) = true
  ∧ statusOf (run env items r) ∈ [200; 400; 404; 500]
  ∧ (statusOf (run env items r) = 200 →
       headerOf (run env items r) "Content-Type" = Some "text/calendar; charset=utf-8")
  ∧ (statusOf (run env items r) ≠ 200 →
       Header (Writer (ctx (run env items r)))
       = {[ "Content-Type" := "text/plain; charset=utf-8" ]}
       ∧ headerOf (run env items r) "Access-Control-Allow-Origin" = None).
Proof.
  walk env items r; split_and!; try done; try (intros; split; reflexivity);
    try (intros; reflexivity); rewrite !elem_of_cons; auto.
Qed.

(** X6: an error of a collaborator reaches the client as one of two fixed
    texts only: a run records an error exactly when it answers 500, it
    records exactly one, and the body of a 500 is [Unable to retrieve
    timetable] or [Unable to serialize calendar] whatever the error says. *)
Theorem internal_errors_stay_internal env items r :
  (statusOf (run env items r) = 500 ↔ Errors (ctx (run env items r)) ≠ [])
  ∧ (length (Errors (ctx (run env items r))) ≤ 1)%nat
  ∧ (statusOf (run env items r) = 500 →
       bodyOf (run env items r) = "Unable to retrieve timetable"
       ∨ bodyOf (run env items r) = "Unable to serialize calendar").
Proof.
  walk env items r; split_and!; try done; try (split; intros; done); simpl; auto.
Qed.

(** X7: the calls of a run: the cache [Get] comes first and is the only
    one; the timetable source is called at most once; and a [Set], if
    there is one, is the last event of a run that answers 200, for the
    run's own key and with exactly the bytes of the response body. *)
Theorem call_discipline env items r :
  hd_error (trace (run env items r)) = Some (EvCacheGet (cacheKey r))
  ∧ List.filter (λ e, match e with EvCacheGet _ => true | _ => false end)
      (trace (run env items r)) = [EvCacheGet (cacheKey r)]
  ∧ (length (timetable_calls (run env items r)) ≤ 1)%nat
  ∧ (∀ k buf, In (EvCacheSet k buf) (trace (run env items r)) →
       k = cacheKey r
       ∧ buf = bodyOf (run env items r)
       ∧ statusOf (run env items r) = 200
       ∧ last (trace (run env items r)) = Some (EvCacheSet k buf)).
Proof.
  walk env items r; split_and!; try reflexivity; simpl; try lia;
    intros k b Hin; simpl in Hin; intuition (try discriminate).
  all: by simplify_eq.
Qed.

(** X8: a run touches at most the entry under its own key: every other
    key looks up as before, and the cache is either unchanged or gains,
    under the run's key, the response body with an expiry ten minutes
    after the [Set]. *)
Theorem other_entries_untouched env items r :
  (∀ k, k ≠ cacheKey r → calcache (run env items r) !! k = items !! k)
  ∧ (calcache (run env items r) = items
     ∨ (statusOf (run env items r) = 200
        ∧ cache.Get (now_get env) (cacheKey r) items = None
        ∧ calcache (run env items r)
          = <[cacheKey r := {| cache.Object := bodyOf (run env items r);
                               cache.Expiration := now_set env + 10 * time.Minute |}]>
              items)).
Proof.
  walk env items r; split; auto.
  intros k Hk. by rewrite lookup_Set_ne.
Qed.

(** X9: a run that ends in an error leaves no mark: whatever request
    comes next, at whatever time, is served exactly as if the failed
    request had never been made. *)
Theorem failed_request_leaves_no_mark env1 env2 items r1 r2 :
  statusOf (run env1 items r1) ≠ http.StatusOK →
  run env2 (calcache (run env1 items r1)) r2 = run env2 items r2.
Proof.
  intros Herr.
  assert (Hsame : calcache (run env1 items r1) = items); [|by rewrite Hsame].
  walk env1 items r1; done.
Qed.

(** X10: once the entry of a request has expired the request is
    synthesized again: after a run that missed the cache and succeeded, the
    same request served later than ten minutes after the [Set] (the clock
    being such that the expiry instant is positive), with any sweeps of the
    janitor in between, misses the cache and repeats the call to the
    timetable source. *)
Theorem expired_entry_is_resynthesized env1 env2 items r ticks :
  cache.Get (now_get env1) (cacheKey r) items = None →
  statusOf (run env1 items r) = http.StatusOK →
  0 < now_set env1 + 10 * time.Minute < now_get env2 →
  cache.Get (now_get env2) (cacheKey r) (janitor ticks (calcache (run env1 items r)))
    = None
  ∧ timetable_calls (run env2 (janitor ticks (calcache (run env1 items r))) r)
    = timetable_calls (run env1 items r)
  ∧ length (timetable_calls (run env1 items r)) = 1%nat.
Proof.
  intros Hmiss Hok Hlate.
  assert (Hgone : cache.Get (now_get env2) (cacheKey r)
                    (janitor ticks (calcache (run env1 items r))) = None).
  { apply Get_janitor_None.
    destruct (served_fresh_entry FindById GetTimetable ToICS SerializeTo
                env1 items r Hmiss Hok) as [_ Hentry].
    unfold cache.Get. rewrite Hentry. unfold cache.Expired. cbn [cache.Expiration].
    assert ((0 <? now_set env1 + 10 * time.Minute) = true) as -> by lia.
    assert ((now_set env1 + 10 * time.Minute <? now_get env2) = true) as -> by lia.
    reflexivity. }
  split; [exact Hgone|].
  set (items' := janitor ticks (calcache (run env1 items r))) in *. clearbody items'.
  walk env1 items r; try discriminate; try congruence.
  split; [|reflexivity].
  match goal with
  | Ha : strconv.Atoi (annoParam r) = Some ?a, Hi : strconv.Atoi (idParam r) = Some ?i,
    Hf : FindById ?i = Some ?c, Hr : 1 ≤ ?a ≤ DurataAnni ?c |- _ =>
      by destruct (served_valid_miss FindById GetTimetable ToICS SerializeTo
                     env2 items' r a i c Hgone Ha Hi Hf Hr)
  end.
Qed.

Lemma curriculumOf_eq (r : Request) :
  curriculumOf r = {| Value := ByName "curriculum" (QueryValues r) |}.
Proof.
  unfold curriculumOf.
  destruct (String.eqb_spec (ByName "curriculum" (QueryValues r)) "") as [->|]; done.
Qed.

(** X11: which curriculum is fetched: on a request that passes
    validation and misses the cache, the one call to the timetable source
    carries, as the curriculum's value, the first [curriculum] query value
    exactly as it was sent, and the empty string when there is none. *)
Theorem curriculum_passed_verbatim env items r annoInt idInt course :
  cache.Get (now_get env) (cacheKey r) items = None →
  strconv.Atoi (annoParam r) = Some annoInt →
  strconv.Atoi (idParam r) = Some idInt →
  FindById idInt = Some course →
  1 ≤ annoInt ≤ DurataAnni course →
  timetable_calls (run env items r)
  = [EvGetTimetable course annoInt {| Value := ByName "curriculum" (QueryValues r) |}].
Proof.
  intros Hmiss Hanno Hid Hfind Hin. rewrite <- curriculumOf_eq.
  by destruct (served_valid_miss FindById GetTimetable ToICS SerializeTo
                 env items r annoInt idInt course Hmiss Hanno Hid Hfind Hin).
Qed.

(** X12: two requests whose id texts and year texts parse to the same
    integers and which ask for the same curriculum get the same response
    (status, headers and body) and record the same errors when both miss
    the cache and the upstream is in the same state, however the texts are
    written. *)
Theorem textual_variants_same_document env1 env2 items1 items2 r1 r2 idInt annoInt :
  strconv.Atoi (idParam r1) = Some idInt →
  strconv.Atoi (idParam r2) = Some idInt →
  strconv.Atoi (annoParam r1) = Some annoInt →
  strconv.Atoi (annoParam r2) = Some annoInt →
  ByName "curriculum" (QueryValues r1) = ByName "curriculum" (QueryValues r2) →
  upstream env1 = upstream env2 →
  cache.Get (now_get env1) (cacheKey r1) items1 = None →
  cache.Get (now_get env2) (cacheKey r2) items2 = None →
  Writer (ctx (run env1 items1 r1)) = Writer (ctx (run env2 items2 r2))
  ∧ Errors (ctx (run env1 items1 r1)) = Errors (ctx (run env2 items2 r2)).
Proof.
  intros Hid1 Hid2 Hanno1 Hanno2 Hcur Hup Hmiss1 Hmiss2.
  assert (Hc : curriculumOf r1 = curriculumOf r2) by (by rewrite !curriculumOf_eq, Hcur).
  walk env1 items1 r1; simplify_eq; walk env2 items2 r2; simplify_eq;
    try done; try lia.
  all: rewrite ?Hup, ?Hc in *; simplify_eq; try done.
  all: split; congruence.
Qed.

(** X13: on a cache every entry of which was stored by the handler, a
    request whose id parses but which the handler rejects (year not a
    number, course unknown, or year out of range) can never be served from
    the cache: it misses, is answered 400 or 404, and changes nothing. *)
Theorem rejected_request_never_served_from_cache env items r idInt :
  sound items →
  strconv.Atoi (idParam r) = Some idInt →
  (strconv.Atoi (annoParam r) = None
   ∨ FindById idInt = None
   ∨ ∃ annoInt course,
       strconv.Atoi (annoParam r) = Some annoInt
       ∧ FindById idInt = Some course
       ∧ (annoInt ≤ 0 ∨ annoInt > DurataAnni course)) →
  cache.Get (now_get env) (cacheKey r) items = None
  ∧ statusOf (run env items r) ∈ [400; 404]
  ∧ calcache (run env items r) = items
  ∧ timetable_calls (run env items r) = [].
Proof.
  intros Hsound Hid Hrej.
  assert (Hmiss : cache.Get (now_get env) (cacheKey r) items = None).
  { destruct (cache.Get (now_get env) (cacheKey r) items) as [cal|] eqn:Hget; [|done].
    apply Get_Some in Hget as (it & Hit & _ & _).
    destruct (Hsound _ _ Hit)
      as (r' & w & annoInt' & idInt' & course' & tt' & Hkey & Hanno' & Hid' & Hfind'
          & Hin & _).
    destruct (cacheKey_inj r' r idInt' idInt Hid' Hid Hkey) as [Heqid Heqanno].
    rewrite Heqid in Hid'. rewrite Heqanno in Hanno'. simplify_eq.
    destruct Hrej as [? | [? | (a & c & ? & ? & ?)]]; simplify_eq; lia. }
  split; [done|].
  destruct Hrej as [Hanno | [Hfind | (a & c & Hanno & Hfind & Hout)]];
    walk env items r; simplify_eq; try lia;
    (split_and!; [rewrite !elem_of_cons; auto | done | done]).
Qed.

(** X14: with ids that parse, the cache key tells the two path texts
    apart: two such requests have the same key exactly when they have the
    same id text and the same year text. *)
Theorem cache_key_determines_path r1 r2 i1 i2 :
  strconv.Atoi (idParam r1) = Some i1 →
  strconv.Atoi (idParam r2) = Some i2 →
  cacheKey r1 = cacheKey r2 ↔ idParam r1 = idParam r2 ∧ annoParam r1 = annoParam r2.
Proof.
  intros H1 H2. split.
  - by apply (cacheKey_inj r1 r2 i1 i2).
  - intros [Hi Ha]. by rewrite !cacheKey_eq, Hi, Ha.
Qed.

(** X15: the years [anniRange] lists for a course are all accepted by the
    calendar endpoint: for a course the directory resolves and a year [y]
    that [anniRange (DurataAnni course)] returns, the request whose year
    text is [y] printed with [%d] passes validation and, on a cache miss,
    fetches the timetable of exactly that course and year. *)
Theorem listed_years_are_accepted env items r fuel years y idInt course :
  strconv.Atoi (idParam r) = Some idInt →
  FindById idInt = Some course →
  anniRange fuel (DurataAnni course) = Returned years →
  y ∈ years →
  annoParam r = fmt.Sprintf "%d" [fmt.D y] →
  cache.Get (now_get env) (cacheKey r) items = None →
  strconv.Atoi (annoParam r) = Some y
  ∧ timetable_calls (run env items r) = [EvGetTimetable course y (curriculumOf r)]
  ∧ statusOf (run env items r) ∈ [200; 500].
Proof.
  intros Hid Hfind Hyears Hy Hanno Hmiss.
  apply anniRange_Returned in Hyears as [Hd ->].
  apply elem_of_seqZ in Hy.
  change (2 ^ 45) with 35184372088832 in Hd.
  assert (Hparse : strconv.Atoi (annoParam r) = Some y).
  { rewrite Hanno. change (fmt.Sprintf "%d" [fmt.D y]) with (fmt.decimal y ++ "").
    rewrite append_empty_r. apply Atoi_decimal. rewrite minInt_eq, maxInt_eq. lia. }
  split; [done|].
  assert (Hin : 1 ≤ y ≤ DurataAnni course) by lia.
  walk env items r; simplify_eq; try lia;
    (split; [done | rewrite !elem_of_cons; auto]).
Qed.

(** X21: which rejection wins on a cache miss: the year text is judged
    first, so [Invalid year] is the answer whenever it does not parse, even
    for an id that is no number or a course that does not exist;
    [Invalid id] needs a year that parses; 404 needs both to parse and
    says nothing about the year's range; and the range of the year is
    only judged for a course that exists. *)
Theorem rejection_precedence env items r :
  cache.Get (now_get env) (cacheKey r) items = None →
  (statusOf (run env items r) = 400 ∧ bodyOf (run env items r) = "Invalid year" ↔
     strconv.Atoi (annoParam r) = None
     ∨ ∃ annoInt idInt course,
         strconv.Atoi (annoParam r) = Some annoInt
         ∧ strconv.Atoi (idParam r) = Some idInt
         ∧ FindById idInt = Some course
         ∧ (annoInt ≤ 0 ∨ annoInt > DurataAnni course))
  ∧ (statusOf (run env items r) = 400 ∧ bodyOf (run env items r) = "Invalid id" ↔
       (∃ annoInt, strconv.Atoi (annoParam r) = Some annoInt)
       ∧ strconv.Atoi (idParam r) = None)
  ∧ (statusOf (run env items r) = 404 ↔
       ∃ annoInt idInt,
         strconv.Atoi (annoParam r) = Some annoInt
         ∧ strconv.Atoi (idParam r) = Some idInt
         ∧ FindById idInt = None)
  ∧ (strconv.Atoi (annoParam r) = None →
       trace (run env items r) = [EvCacheGet (cacheKey r); EvAtoi (annoParam r)]).
Proof.
  intros Hmiss.
  walk env items r; try congruence; split_and!;
    try (split; intros Hx);
    try (intros Hx);
    repeat match goal with
           | H : _ ∨ _ |- _ => destruct H
           | H : ∃ _, _ |- _ => destruct H
           | H : _ ∧ _ |- _ => destruct H
           end;
    simplify_eq; try congruence; try lia; try done;
    first [ left; by eauto 10 | right; by eauto 10 | by eauto 10 ].
Qed.

End MoreProperties.

(** ** Every cache the server can reach *)

Section HistoryProperties.

Context {Timetable Component World : Type}.
Variable FindById : Z → option Course.
Variable GetTimetable : World → Course → Z → Curriculum → result Timetable.
Variable ToICS : Timetable → Calendar Component.
Variable SerializeTo : Calendar Component → result string.

Local Abbreviation run := (serve FindById GetTimetable ToICS SerializeTo).
Local Abbreviation sound := (cache_sound FindById GetTimetable ToICS SerializeTo).
Local Abbreviation history := (replay FindById GetTimetable ToICS SerializeTo).

Lemma replay_snoc (steps : list (Step World)) (st : Step World) :
  history (steps ++ [st])
  = step FindById GetTimetable ToICS SerializeTo (history steps) st.
Proof. unfold replay. by rewrite foldl_app. Qed.

Lemma DeleteExpired_sound (t : Z) (items : gmap string cache.Item) :
  sound items → sound (cache.DeleteExpired t items).
Proof.
  intros Hsound k it Hk. unfold cache.DeleteExpired in Hk.
  apply map_lookup_filter_Some_1_1 in Hk. by apply Hsound.
Qed.

Lemma replay_sound (steps : list (Step World)) : sound (history steps).
Proof.
  induction steps as [|st steps IH] using rev_ind.
  - apply cache_sound_empty.
  - rewrite replay_snoc. destruct st as [t|env r]; simpl.
    + by apply DeleteExpired_sound.
    + by apply serve_cache_sound.
Qed.

(** X16: after any history of requests and janitor sweeps that starts
    with the empty cache, every key in the cache is [id-anno] for an id
    text that parses to a course of the directory and a year text that
    parses to a year within that course's duration, and the bytes stored
    under it are those of a successful synthesis for such a request. *)
Theorem reachable_cache_holds_valid_requests (steps : list (Step World)) :
  ∀ k it, history steps !! k = Some it →
    ∃ idText annoText idInt annoInt course,
      k = idText ++ "-" ++ annoText
      ∧ strconv.Atoi idText = Some idInt
      ∧ strconv.Atoi annoText = Some annoInt
      ∧ FindById idInt = Some course
      ∧ 1 ≤ annoInt ≤ DurataAnni course
      ∧ synthesized FindById GetTimetable ToICS SerializeTo k (cache.Object it).
Proof.
  intros k it Hk. pose proof (replay_sound steps k it Hk) as Hsyn.
  destruct Hsyn as (r & w & annoInt & idInt & course & tt & Hkey & Hanno & Hid & Hfind
                    & Hin & Htt & Hser).
  exists (idParam r), (annoParam r), idInt, annoInt, course.
  split_and!; try done; try lia.
  - by rewrite <- Hkey, cacheKey_eq.
  - exists r, w, annoInt, idInt, course, tt. split_and!; try done; lia.
Qed.

(** X17: after any such history, every entry of the cache was stored by
    a request of the history under that request's key and expires ten
    minutes after the clock reading of that request's [Set]: reading an
    entry never prolongs it and no entry is stored for good. *)
Theorem reachable_entries_expire (steps : list (Step World)) :
  ∀ k it, history steps !! k = Some it →
    ∃ env r, In (Arrival env r) steps
             ∧ k = cacheKey r
             ∧ cache.Expiration it = now_set env + 10 * time.Minute.
Proof.
  induction steps as [|st steps IH] using rev_ind; intros k it Hk.
  - unfold replay in Hk. simpl in Hk. by rewrite lookup_empty in Hk.
  - rewrite replay_snoc in Hk. destruct st as [t|env r]; simpl in Hk.
    + unfold cache.DeleteExpired in Hk. apply map_lookup_filter_Some_1_1 in Hk.
      destruct (IH k it Hk) as (env' & r' & Hin & ? & ?).
      exists env', r'. split_and!; try done. apply in_or_app. by left.
    + destruct (served_calcache FindById GetTimetable ToICS SerializeTo
                  env (history steps) r) as [Hsame | [buf Hset]].
      * rewrite Hsame in Hk. destruct (IH k it Hk) as (env' & r' & Hin & ? & ?).
        exists env', r'. split_and!; try done. apply in_or_app. by left.
      * rewrite Hset in Hk. destruct (decide (k = cacheKey r)) as [->|Hne].
        -- rewrite lookup_calcache_Set in Hk. injection Hk as <-.
           exists env, r. split_and!; try done. apply in_or_app. right. by left.
        -- rewrite lookup_Set_ne in Hk by done.
           destruct (IH k it Hk) as (env' & r' & Hin & ? & ?).
           exists env', r'. split_and!; try done. apply in_or_app. by left.
Qed.

End HistoryProperties.

(** ** [coursePage] *)

Section PageProperties.

Context {Curricula Timetable Component World : Type}.
Variable FindById : Z → option Course.
Variable GetAllCurricula : World → Course → result Curricula.
Variable ExecuteTemplate : string → Course → Curricula → string.
Variable GetTimetable : World → Course → Z → Curriculum → result Timetable.
Variable ToICS : Timetable → Calendar Component.
Variable SerializeTo : Calendar Component → result string.

Local Abbreviation page := (servePage FindById GetAllCurricula ExecuteTemplate).
Local Abbreviation run := (serve FindById GetTimetable ToICS SerializeTo).

(** The five ways through [coursePage], in closed form. *)
Lemma servePage_eq up items r :
  page up items r =
  if String.eqb (idParam r) "" then
    mkState items r (plainText http.StatusBadRequest "Invalid course id") [] []
  else
    match strconv.Atoi (idParam r) with
    | None =>
        mkState items r (plainText http.StatusBadRequest "Invalid course id") []
          [EvAtoi (idParam r)]
    | Some idInt =>
        match FindById idInt with
        | None =>
            mkState items r (plainText http.StatusNotFound "Course not found") []
              [EvAtoi (idParam r); EvFindById idInt]
        | Some course =>
            match GetAllCurricula up course with
            | Err err =>
                mkState items r
                  (plainText http.StatusInternalServerError "Unable to retrieve curricula")
                  [err] [EvAtoi (idParam r); EvFindById idInt]
            | Ok curricula =>
                mkState items r
                  {| Header := <["Content-Type" := "text/html; charset=utf-8"]> ∅;
                     Status := http.StatusOK; Written := true;
                     Body := ExecuteTemplate "course" course curricula |}
                  [] [EvAtoi (idParam r); EvFindById idInt]
            end
        end
    end.
Proof.
  unfold servePage, coursePage, mbind, Handler_bind, c_Param, gets.
  cbn [calcache ctx trace newContext Req snd fst]. fold (idParam r).
  destruct (String.eqb (idParam r) ""); [reflexivity|].
  unfold strconv_Atoi, mbind, Handler_bind, mret, Handler_ret, record.
  cbn [calcache ctx trace].
  destruct (strconv.Atoi (idParam r)) as [idInt|]; [|reflexivity].
  unfold courses_FindById, mbind, Handler_bind, mret, Handler_ret, record.
  cbn [calcache ctx trace].
  destruct (FindById idInt) as [course|]; [|reflexivity].
  destruct (GetAllCurricula up course) as [curricula|err]; reflexivity.
Qed.

Lemma Atoi_empty_id (s : string) : String.eqb s "" = true → strconv.Atoi s = None.
Proof. intros Hs. apply String.eqb_eq in Hs. by subst s. Qed.

(** X18: what [coursePage] answers: 400 [Invalid course id] exactly when
    the id text does not parse (the empty text included); 404 [Course not
    found] exactly when it parses to an identifier the directory does not
    know; 500 [Unable to retrieve curricula], with the error recorded,
    exactly when the course resolves and its curricula cannot be fetched;
    and otherwise 200 with the HTML content type and the [course] template
    executed on the course and its curricula. *)
Theorem coursePage_answers up items r :
  (statusOf (page up items r) = 400 ↔ strconv.Atoi (idParam r) = None)
  ∧ (statusOf (page up items r) = 400 → bodyOf (page up items r) = "Invalid course id")
  ∧ (statusOf (page up items r) = 404 ↔
       ∃ idInt, strconv.Atoi (idParam r) = Some idInt ∧ FindById idInt = None)
  ∧ (statusOf (page up items r) = 404 → bodyOf (page up items r) = "Course not found")
  ∧ (statusOf (page up items r) = 500 ↔
       ∃ idInt course err,
         strconv.Atoi (idParam r) = Some idInt ∧ FindById idInt = Some course
         ∧ GetAllCurricula up course = Err err
         ∧ Errors (ctx (page up items r)) = [err]
         ∧ bodyOf (page up items r) = "Unable to retrieve curricula")
  ∧ (statusOf (page up items r) = 200 ↔
       ∃ idInt course curricula,
         strconv.Atoi (idParam r) = Some idInt ∧ FindById idInt = Some course
         ∧ GetAllCurricula up course = Ok curricula
         ∧ bodyOf (page up items r) = ExecuteTemplate "course" course curricula
         ∧ headerOf (page up items r) "Content-Type" = Some "text/html; charset=utf-8"
         ∧ Errors (ctx (page up items r)) = []).
Proof.
  rewrite servePage_eq. unfold statusOf, bodyOf, headerOf.
  destruct (String.eqb (idParam r) "") eqn:Hempty.
  { apply Atoi_empty_id in Hempty. rewrite Hempty. simpl.
    split_and!; try done; split; try done;
      intros; repeat match goal with H : ∃ _, _ |- _ => destruct H end;
      intuition discriminate. }
  destruct (strconv.Atoi (idParam r)) as [idInt|] eqn:Hid.
  2: { simpl. split_and!; try done; split; try done;
         intros; repeat match goal with H : ∃ _, _ |- _ => destruct H end;
         intuition discriminate. }
  destruct (FindById idInt) as [course|] eqn:Hfind.
  2: { simpl. split_and!; try done; split; try done; eauto;
         intros; repeat match goal with H : ∃ _, _ |- _ => destruct H end;
         intuition (simplify_eq; try discriminate). }
  destruct (GetAllCurricula up course) as [curricula|err] eqn:Hcur; simpl;
    (split_and!; try done; split; try done; eauto 10;
       intros; repeat match goal with H : ∃ _, _ |- _ => destruct H end;
       intuition (simplify_eq; try discriminate)).
Qed.

(** X19: [coursePage] stays away from the calendar cache and from the
    timetable source: whatever the request, the cache after the run is the
    cache before it, and the run makes no cache access and no timetable
    call; it looks up the directory at most once. *)
Theorem coursePage_leaves_cache_alone up items r :
  calcache (page up items r) = items
  ∧ cache_accesses (page up items r) = []
  ∧ timetable_calls (page up items r) = []
  ∧ (length (List.filter (λ e, match e with EvFindById _ => true | _ => false end)
               (trace (page up items r))) ≤ 1)%nat.
Proof.
  rewrite servePage_eq. unfold cache_accesses, timetable_calls.
  destruct (String.eqb (idParam r) ""); [by split_and!; simpl; try lia|].
  destruct (strconv.Atoi (idParam r)) as [idInt|]; [|by split_and!; simpl; try lia].
  destruct (FindById idInt) as [course|]; [|by split_and!; simpl; try lia].
  destruct (GetAllCurricula up course); split_and!; simpl; try done; lia.
Qed.

(** X20: the two endpoints judge a course id alike: for one and the same
    id text, and a calendar request with a year text that parses and no
    live cache entry, the page answers 400 exactly when the calendar
    endpoint answers 400 [Invalid id], and the page answers 404 exactly
    when the calendar endpoint does. *)
Theorem endpoints_agree_on_course_id up env items items' r annoInt :
  strconv.Atoi (annoParam r) = Some annoInt →
  cache.Get (now_get env) (cacheKey r) items = None →
  (statusOf (page up items' r) = 400 ↔
     statusOf (run env items r) = 400 ∧ bodyOf (run env items r) = "Invalid id")
  ∧ (statusOf (page up items' r) = 404 ↔ statusOf (run env items r) = 404).
Proof.
  intros Hanno Hmiss. rewrite servePage_eq.
  pose proof (serve_Served FindById GetTimetable ToICS SerializeTo env items r) as Hs.
  unfold statusOf, bodyOf.
  destruct (String.eqb (idParam r) "") eqn:Hempty.
  { apply Atoi_empty_id in Hempty.
    inversion Hs; simplify_eq; simpl; split; split; intuition done. }
  destruct (strconv.Atoi (idParam r)) as [idInt|] eqn:Hid.
  2: { inversion Hs; simplify_eq; simpl; split; split; intuition done. }
  destruct (FindById idInt) as [course|] eqn:Hfind.
  2: { inversion Hs; simplify_eq; simpl; split; split; intuition done. }
  destruct (GetAllCurricula up course);
    inversion Hs; simplify_eq; simpl; split; split; intuition done.
Qed.

End PageProperties.

(** ** The further properties at concrete inputs *)


(** The second year cannot be fetched while the upstream is down; the
    retry a second later is served as if that failure had not happened. *)
Lemma failed_request_leaves_no_mark_witness :
  statusOf (Demo.serve (Demo.at_ 3000 false) (calcache Demo.after_first_year)
              (Demo.request "42" "2" [])) ≠ http.StatusOK
  ∧ Demo.serve (Demo.at_ 4000 true)
      (calcache (Demo.serve (Demo.at_ 3000 false) (calcache Demo.after_first_year)
                   (Demo.request "42" "2" [])))
      (Demo.request "42" "2" [])
    = Demo.serve (Demo.at_ 4000 true) (calcache Demo.after_first_year)
        (Demo.request "42" "2" []).
Proof.
  assert (Herr : statusOf (Demo.serve (Demo.at_ 3000 false) (calcache Demo.after_first_year)
                             (Demo.request "42" "2" [])) ≠ http.StatusOK).
  { vm_compute. discriminate. }
  split; [exact Herr|].
  exact (failed_request_leaves_no_mark Demo.FindById Demo.GetTimetable Demo.ToICS
           Demo.SerializeTo (Demo.at_ 3000 false) (Demo.at_ 4000 true)
           (calcache Demo.after_first_year) (Demo.request "42" "2" [])
           (Demo.request "42" "2" []) Herr).
Defined.

(** [GET /cal/42/1] again, one nanosecond after the entry expired. *)
Lemma expired_entry_is_resynthesized_witness :
  (cache.Get (now_get Demo.morning) (cacheKey Demo.first_year) ∅ = None
   ∧ statusOf Demo.after_first_year = http.StatusOK
   ∧ 0 < now_set Demo.morning + 10 * time.Minute
       < now_get (Demo.at_ (1002 + 10 * time.Minute) true))
  ∧ timetable_calls (Demo.serve (Demo.at_ (1002 + 10 * time.Minute) true)
                       (janitor [5 * time.Minute] (calcache Demo.after_first_year))
                       Demo.first_year)
    = timetable_calls Demo.after_first_year.
Proof.
  assert (Hmiss : cache.Get (now_get Demo.morning) (cacheKey Demo.first_year) ∅ = None)
    by reflexivity.
  assert (Hok : statusOf Demo.after_first_year = http.StatusOK) by reflexivity.
  assert (Hlate : 0 < now_set Demo.morning + 10 * time.Minute
                    < now_get (Demo.at_ (1002 + 10 * time.Minute) true)).
  { split; vm_compute; reflexivity. }
  split; [by split_and!|].
  destruct (expired_entry_is_resynthesized Demo.FindById Demo.GetTimetable Demo.ToICS
              Demo.SerializeTo Demo.morning (Demo.at_ (1002 + 10 * time.Minute) true)
              ∅ Demo.first_year [5 * time.Minute] Hmiss Hok Hlate) as (_ & Hcalls & _).
  exact Hcalls.
Defined.

(** [GET /cal/42/1?curriculum=A] fetches curriculum [A]. *)
Lemma curriculum_passed_verbatim_witness :
  (cache.Get (now_get Demo.morning) (cacheKey Demo.first_year_A) ∅ = None
   ∧ strconv.Atoi (annoParam Demo.first_year_A) = Some 1
   ∧ strconv.Atoi (idParam Demo.first_year_A) = Some 42
   ∧ Demo.FindById 42 = Some Demo.informatica
   ∧ 1 ≤ 1 ≤ DurataAnni Demo.informatica)
  ∧ timetable_calls Demo.after_first_year_A
    = [EvGetTimetable Demo.informatica 1 {| Value := "A" |}].
Proof.
  assert (Hin : 1 ≤ 1 ≤ DurataAnni Demo.informatica) by (simpl; lia).
  assert (Hmiss : cache.Get (now_get Demo.morning) (cacheKey Demo.first_year_A) ∅ = None)
    by reflexivity.
  split; [split_and!; try reflexivity; lia|].
  exact (curriculum_passed_verbatim Demo.FindById Demo.GetTimetable Demo.ToICS
           Demo.SerializeTo Demo.morning ∅ Demo.first_year_A 1 42 Demo.informatica
           Hmiss eq_refl eq_refl eq_refl Hin).
Defined.

(** [/cal/42/1] and [/cal/+42/01] give the same document. *)
Lemma textual_variants_same_document_witness :
  (strconv.Atoi (idParam Demo.first_year) = Some 42
   ∧ strconv.Atoi (idParam Demo.first_year_padded) = Some 42
   ∧ strconv.Atoi (annoParam Demo.first_year) = Some 1
   ∧ strconv.Atoi (annoParam Demo.first_year_padded) = Some 1
   ∧ cacheKey Demo.first_year ≠ cacheKey Demo.first_year_padded)
  ∧ Writer (ctx (Demo.serve Demo.morning ∅ Demo.first_year))
    = Writer (ctx (Demo.serve (Demo.at_ 2000 true) (calcache Demo.after_first_year)
                     Demo.first_year_padded)).
Proof.
  assert (Hmiss1 : cache.Get (now_get Demo.morning) (cacheKey Demo.first_year) ∅ = None)
    by reflexivity.
  assert (Hmiss2 : cache.Get (now_get (Demo.at_ 2000 true))
                     (cacheKey Demo.first_year_padded) (calcache Demo.after_first_year)
                   = None) by reflexivity.
  split; [split_and!; try reflexivity; vm_compute; discriminate|].
  destruct (textual_variants_same_document Demo.FindById Demo.GetTimetable Demo.ToICS
              Demo.SerializeTo Demo.morning (Demo.at_ 2000 true) ∅
              (calcache Demo.after_first_year) Demo.first_year Demo.first_year_padded
              42 1 eq_refl eq_refl eq_refl eq_refl eq_refl eq_refl Hmiss1 Hmiss2)
    as [Hw _].
  exact Hw.
Defined.

(** [GET /cal/42/5] against the cache the first request left. *)
Lemma rejected_request_never_served_from_cache_witness :
  (cache_sound Demo.FindById Demo.GetTimetable Demo.ToICS Demo.SerializeTo
     (calcache Demo.after_first_year)
   ∧ strconv.Atoi (idParam Demo.fifth_year) = Some 42)
  ∧ cache.Get (now_get (Demo.at_ 2000 true)) (cacheKey Demo.fifth_year)
      (calcache Demo.after_first_year) = None
  ∧ statusOf (Demo.serve (Demo.at_ 2000 true) (calcache Demo.after_first_year)
                Demo.fifth_year) ∈ [400; 404].
Proof.
  assert (Hsound : cache_sound Demo.FindById Demo.GetTimetable Demo.ToICS Demo.SerializeTo
                     (calcache Demo.after_first_year)).
  { apply serve_cache_sound, cache_sound_empty. }
  split; [by split|].
  destruct (rejected_request_never_served_from_cache Demo.FindById Demo.GetTimetable
              Demo.ToICS Demo.SerializeTo (Demo.at_ 2000 true)
              (calcache Demo.after_first_year) Demo.fifth_year 42 Hsound eq_refl)
    as (Hmiss & Hstatus & _).
  - right. right. exists 5, Demo.informatica.
    split_and!; [reflexivity | reflexivity | right; simpl; lia].
  - by split.
Defined.

(** [42/1] and [+42/01] have different keys; [42/1] has its own. *)
Lemma cache_key_determines_path_witness :
  (strconv.Atoi (idParam Demo.first_year) = Some 42
   ∧ strconv.Atoi (idParam Demo.first_year_padded) = Some 42)
  ∧ (cacheKey Demo.first_year = cacheKey Demo.first_year_padded ↔
       idParam Demo.first_year = idParam Demo.first_year_padded
       ∧ annoParam Demo.first_year = annoParam Demo.first_year_padded).
Proof.
  split; [by split|].
  exact (cache_key_determines_path Demo.first_year Demo.first_year_padded 42 42
           eq_refl eq_refl).
Defined.

(** The link to the second of the three years of course 42. *)
Lemma listed_years_are_accepted_witness :
  (strconv.Atoi (idParam (DemoPages.year_link "42" 2)) = Some 42
   ∧ Demo.FindById 42 = Some Demo.informatica
   ∧ anniRange 3 (DurataAnni Demo.informatica) = Returned [1; 2; 3]
   ∧ 2 ∈ [1; 2; 3]
   ∧ annoParam (DemoPages.year_link "42" 2) = fmt.Sprintf "%d" [fmt.D 2]
   ∧ cache.Get (now_get Demo.morning) (cacheKey (DemoPages.year_link "42" 2)) ∅ = None)
  ∧ strconv.Atoi (annoParam (DemoPages.year_link "42" 2)) = Some 2
  ∧ timetable_calls (Demo.serve Demo.morning ∅ (DemoPages.year_link "42" 2))
    = [EvGetTimetable Demo.informatica 2 (curriculumOf (DemoPages.year_link "42" 2))]
  ∧ statusOf (Demo.serve Demo.morning ∅ (DemoPages.year_link "42" 2)) ∈ [200; 500].
Proof.
  assert (Hy : 2 ∈ [1; 2; 3]) by (rewrite !elem_of_cons; auto).
  assert (Hmiss : cache.Get (now_get Demo.morning)
                    (cacheKey (DemoPages.year_link "42" 2)) ∅ = None) by reflexivity.
  split; [split_and!; try reflexivity; exact Hy|].
  exact (listed_years_are_accepted Demo.FindById Demo.GetTimetable Demo.ToICS
           Demo.SerializeTo Demo.morning ∅ (DemoPages.year_link "42" 2) 3 [1; 2; 3] 2 42
           Demo.informatica eq_refl eq_refl eq_refl Hy eq_refl Hmiss).
Defined.

(** The cache after the demo history holds one entry, under [+42-01]. *)
Lemma reachable_cache_holds_valid_requests_witness :
  DemoPages.replay DemoPages.history !! "+42-01"
    = Some {| cache.Object := bodyOf Demo.after_first_year;
              cache.Expiration := 6 * time.Minute + 1 + 10 * time.Minute |}
  ∧ ∃ idText annoText idInt annoInt course,
      "+42-01" = idText ++ "-" ++ annoText
      ∧ strconv.Atoi idText = Some idInt
      ∧ strconv.Atoi annoText = Some annoInt
      ∧ Demo.FindById idInt = Some course
      ∧ 1 ≤ annoInt ≤ DurataAnni course
      ∧ synthesized Demo.FindById Demo.GetTimetable Demo.ToICS Demo.SerializeTo
          "+42-01" (bodyOf Demo.after_first_year).
Proof.
  assert (Hk : DemoPages.replay DemoPages.history !! "+42-01"
               = Some {| cache.Object := bodyOf Demo.after_first_year;
                         cache.Expiration := 6 * time.Minute + 1 + 10 * time.Minute |})
    by reflexivity.
  split; [exact Hk|].
  exact (reachable_cache_holds_valid_requests Demo.FindById Demo.GetTimetable Demo.ToICS
           Demo.SerializeTo DemoPages.history "+42-01" _ Hk).
Defined.

Lemma reachable_entries_expire_witness :
  DemoPages.replay DemoPages.history !! "+42-01"
    = Some {| cache.Object := bodyOf Demo.after_first_year;
              cache.Expiration := 6 * time.Minute + 1 + 10 * time.Minute |}
  ∧ ∃ env r, In (Arrival env r) DemoPages.history
             ∧ "+42-01" = cacheKey r
             ∧ 6 * time.Minute + 1 + 10 * time.Minute = now_set env + 10 * time.Minute.
Proof.
  assert (Hk : DemoPages.replay DemoPages.history !! "+42-01"
               = Some {| cache.Object := bodyOf Demo.after_first_year;
                         cache.Expiration := 6 * time.Minute + 1 + 10 * time.Minute |})
    by reflexivity.
  split; [exact Hk|].
  exact (reachable_entries_expire Demo.FindById Demo.GetTimetable Demo.ToICS
           Demo.SerializeTo DemoPages.history "+42-01" _ Hk).
Defined.

(** The id text [x]: the page answers 400, the calendar [Invalid id]. *)
Lemma endpoints_agree_on_course_id_witness :
  (strconv.Atoi (annoParam (Demo.request "x" "1" [])) = Some 1
   ∧ cache.Get (now_get Demo.morning) (cacheKey (Demo.request "x" "1" [])) ∅ = None)
  ∧ (statusOf (DemoPages.servePage true ∅ (Demo.request "x" "1" [])) = 400 ↔
       statusOf (Demo.serve Demo.morning ∅ (Demo.request "x" "1" [])) = 400
       ∧ bodyOf (Demo.serve Demo.morning ∅ (Demo.request "x" "1" [])) = "Invalid id")
  ∧ statusOf (DemoPages.servePage true ∅ (Demo.request "x" "1" [])) = 400.
Proof.
  assert (Hmiss : cache.Get (now_get Demo.morning) (cacheKey (Demo.request "x" "1" [])) ∅
                  = None) by reflexivity.
  split; [by split|].
  destruct (endpoints_agree_on_course_id Demo.FindById DemoPages.GetAllCurricula
              DemoPages.ExecuteTemplate Demo.GetTimetable Demo.ToICS Demo.SerializeTo
              true Demo.morning ∅ ∅ (Demo.request "x" "1" []) 1 eq_refl Hmiss)
    as [H400 _].
  split; [exact H400 | reflexivity].
Defined.

(** [GET /cal/x/abc]: neither text is a number; the year is blamed. *)
Lemma rejection_precedence_witness :
  cache.Get (now_get Demo.morning) (cacheKey (Demo.request "x" "abc" [])) ∅ = None
  ∧ strconv.Atoi "x" = None
  ∧ statusOf (Demo.serve Demo.morning ∅ (Demo.request "x" "abc" [])) = 400
  ∧ bodyOf (Demo.serve Demo.morning ∅ (Demo.request "x" "abc" [])) = "Invalid year".
Proof.
  assert (Hmiss : cache.Get (now_get Demo.morning)
                    (cacheKey (Demo.request "x" "abc" [])) ∅ = None) by reflexivity.
  destruct (rejection_precedence Demo.FindById Demo.GetTimetable Demo.ToICS
              Demo.SerializeTo Demo.morning ∅ (Demo.request "x" "abc" []) Hmiss)
    as (Hyear & _).
  destruct (proj2 Hyear) as [Hs Hb]; [left; reflexivity|].
  split_and!; [exact Hmiss | reflexivity | exact Hs | exact Hb].
Defined.
